(** * XY-stage time-lapse controller: location store, stage protocol, run cycle

    Shallow embedding of [doc/gui.py]: the location file reader
    [read_sample_locs], the coordinate page ([SidePage]: [set_x_and_y],
    [update_locs], [save_locs]) and the run page ([RunPage]: [run_program],
    [stop_program], [run_cycle], [goto_and_photo_row], [sleep]).

    Conventions.
    - A Python [bytes] value is a [string] (a list of 8-bit characters).
    - A Python [str] is represented by its UTF-8 encoding, again a [string]:
      [bytes(s, 'utf-8')] is then the identity and [b.decode('utf-8')]
      succeeds exactly on well-formed UTF-8.
    - Python integers are [Z].
    - Exceptions are values of [py_error] carried by [py_result]. *)

From Stdlib Require Import ZArith Ascii String Decimal DecimalString DecimalZ.
From stdpp Require Import gmap strings list.

Local Open Scope Z_scope.

(** ** Python results *)

Inductive py_error : Type :=
  | UnicodeDecodeError
  | ValueError
  | IndexError
  | TypeError.

Inductive py_result (A : Type) : Type :=
  | Ok (a : A)
  | Raise (e : py_error).
Arguments Ok {A} a.
Arguments Raise {A} e.

#[global] Instance py_ret : MRet py_result := λ A a, Ok a.
#[global] Instance py_bind : MBind py_result := λ A B k m,
  match m with
  | Ok a => k a
  | Raise e => Raise e
  end.

(** ** Characters and strings *)

Module PyStr.

Definition CR : ascii := Ascii.ascii_of_nat 13.
Definition LF : ascii := Ascii.ascii_of_nat 10.
Definition NUL : ascii := Ascii.ascii_of_nat 0.
Definition CRLF : string := String CR (String LF EmptyString).

Definition is_empty (s : string) : bool :=
  match s with EmptyString => true | String _ _ => false end.

(** [c in chars] *)
Fixpoint mem (c : ascii) (chars : string) : bool :=
  match chars with
  | EmptyString => false
  | String d chars' => Ascii.eqb c d || mem c chars'
  end.

(** [s.lstrip(chars)] for a set of ASCII characters. *)
Fixpoint lstrip (chars : string) (s : string) : string :=
  match s with
  | EmptyString => EmptyString
  | String c s' => if mem c chars then lstrip chars s' else s
  end.

(** [s.rstrip(chars)] for a set of ASCII characters. *)
Fixpoint rstrip (chars : string) (s : string) : string :=
  match s with
  | EmptyString => EmptyString
  | String c s' =>
      let r := rstrip chars s' in
      if is_empty r && mem c chars then EmptyString else String c r
  end.

(** [s.strip(chars)] *)
Definition strip (chars : string) (s : string) : string :=
  rstrip chars (lstrip chars s).

(** Number of bytes of the UTF-8 sequence introduced by a lead byte. *)
Definition utf8_width (c : ascii) : nat :=
  let b := N_of_ascii c in
  if (b <? 128)%N then 1%nat
  else if (b <? 224)%N then 2%nat
  else if (b <? 240)%N then 3%nat
  else 4%nat.

Fixpoint drop_bytes (n : nat) (s : string) : string :=
  match n, s with
  | O, _ => s
  | S n', String _ s' => drop_bytes n' s'
  | S _, EmptyString => EmptyString
  end.

(** [s[1:]]: the string without its first character (code point). *)
Definition tail1 (s : string) : string :=
  match s with
  | EmptyString => EmptyString
  | String c _ => drop_bytes (utf8_width c) s
  end.

(** [str(n)] for an integer [n]. *)
Definition str (n : Z) : string := NilEmpty.string_of_int (Z.to_int n).

(** The integer denoted by a plain decimal numeral (optional leading minus). *)
Definition decimal_value (s : string) : option Z :=
  if is_empty s then None
  else option_map Z.of_int (NilEmpty.int_of_string s).

(** *** UTF-8 well-formedness (strict decoding) *)

Inductive utf8_state : Type :=
  | Boundary
  | Need (lo hi : N) (more : nat).

Definition utf8_lead (b : N) : option utf8_state :=
  if (b <? 128)%N then Some Boundary
  else if (b <? 194)%N then None
  else if (b <? 224)%N then Some (Need 128 191 0)
  else if (b =? 224)%N then Some (Need 160 191 1)
  else if (b =? 237)%N then Some (Need 128 159 1)
  else if (b <? 240)%N then Some (Need 128 191 1)
  else if (b =? 240)%N then Some (Need 144 191 2)
  else if (b <? 244)%N then Some (Need 128 191 2)
  else if (b =? 244)%N then Some (Need 128 143 2)
  else None.

Fixpoint utf8_run (st : utf8_state) (s : string) : bool :=
  match s with
  | EmptyString => match st with Boundary => true | Need _ _ _ => false end
  | String c s' =>
      let b := N_of_ascii c in
      match st with
      | Boundary =>
          match utf8_lead b with
          | Some st' => utf8_run st' s'
          | None => false
          end
      | Need lo hi more =>
          if (lo <=? b)%N && (b <=? hi)%N then
            utf8_run (match more with O => Boundary | S k => Need 128 191 k end) s'
          else false
      end
  end.

(** [b.decode('utf-8')] *)
Definition decode (b : string) : py_result string :=
  if utf8_run Boundary b then Ok b else Raise UnicodeDecodeError.

(** [bytes.splitlines()]: lines end at LF, CR or CR LF; the terminators are
    dropped; no empty last line is produced. [cur] is the line being read. *)
Fixpoint splitlines_from (cur : string) (data : string) : list string :=
  match data with
  | EmptyString => if is_empty cur then [] else [cur]
  | String c rest =>
      if Ascii.eqb c LF then cur :: splitlines_from EmptyString rest
      else if Ascii.eqb c CR then
        match rest with
        | String d rest' =>
            if Ascii.eqb d LF then cur :: splitlines_from EmptyString rest'
            else cur :: splitlines_from EmptyString rest
        | EmptyString => cur :: splitlines_from EmptyString rest
        end
      else splitlines_from (cur +:+ String c EmptyString) rest
  end.

Definition splitlines (data : string) : list string :=
  splitlines_from EmptyString data.

End PyStr.

(** ** Python sequence indexing *)

(** [l[i]]: negative indices count from the end; out of range raises. *)
Definition py_index {A} (l : list A) (i : Z) : py_result nat :=
  let n := Z.of_nat (length l) in
  if (0 <=? i) && (i <? n) then Ok (Z.to_nat i)
  else if (- n <=? i) && (i <? 0) then Ok (Z.to_nat (n + i))
  else Raise IndexError.

Definition py_getitem {A} (l : list A) (i : Z) : py_result A :=
  k ← py_index l i;
  match l !! k with
  | Some a => Ok a
  | None => Raise IndexError
  end.

(** [l[i] = v] *)
Definition py_setitem {A} (l : list A) (i : Z) (v : A) : py_result (list A) :=
  k ← py_index l i; Ok (<[k := v]> l).

(** ** Location tables and their file *)

(** One table entry: the stored command pair [[row, col]]. A table is the
    list of its entries, whether it is the preset list of lists or the array
    made from a file; the fixed string width of such an array is not
    represented. *)
Definition entry : Type := string * string.

Module Cmd.
Import PyStr.
Local Open Scope string_scope.

Definition g2 (digits : string) : string := "g2" +:+ digits.
Definition g1 (digits : string) : string := "g1" +:+ digits.
Definition line (s : string) : string := s +:+ CRLF.

End Cmd.

(** The preset table of [read_sample_locs]; its strings end in CR LF. *)
Definition preset_locations : list entry :=
  let r1 := Cmd.line "g229000" in
  let r2 := Cmd.line "g222100" in
  [ (r1, Cmd.line "g10500");  (r1, Cmd.line "g110400");
    (r1, Cmd.line "g120200"); (r1, Cmd.line "g130400");
    (r1, Cmd.line "g140400"); (r1, Cmd.line "g150500");
    (r2, Cmd.line "g150500"); (r2, Cmd.line "g140400");
    (r2, Cmd.line "g130400"); (r2, Cmd.line "g120200");
    (r2, Cmd.line "g110400"); (r2, Cmd.line "g10500") ].

(** An element read back from a NumPy array of strings: NumPy stores
    fixed-width strings padded with NUL, so trailing NULs are not kept. *)
Definition np_str (s : string) : string :=
  PyStr.rstrip (String PyStr.NUL EmptyString) s.

(** Rows of a flat sequence taken two by two. *)
Fixpoint rows_of (l : list string) : list entry :=
  match l with
  | a :: b :: l' => (a, b) :: rows_of l'
  | _ => []
  end.

(** [np.array(string_values).reshape(12, 2)] *)
Definition reshape_12_2 (string_values : list string) : py_result (list entry) :=
  if (length string_values =? 24)%nat then Ok (rows_of (np_str <$> string_values))
  else Raise ValueError.

(** The file system: the content of each existing file. *)
Abbreviation files := (gmap string string).

(** [read_sample_locs(filename)]. A missing file is the [FileNotFoundError]
    branch; every other exception propagates. *)
Definition read_sample_locs (fs : files) (filename : string) : py_result (list entry) :=
  match fs !! filename with
  | Some data =>
      let byte_values := PyStr.splitlines data in
      let byte_values := List.filter (λ b, negb (PyStr.is_empty b)) byte_values in
      string_values ←
        mapM (λ b, s ← PyStr.decode b; Ok (PyStr.rstrip (String PyStr.LF EmptyString) s))
             byte_values;
      reshape_12_2 string_values
  | None => Ok preset_locations
  end.

(** [convert_camera(camera_get)] *)
Definition convert_camera (camera_get : string) : Z :=
  if String.eqb camera_get "Left" then 0 else 1.

(** ** The coordinate page *)

(** What the coordinate page reads and writes: the controller's
    [locations] (one table per camera) and the files on disk. *)
Record Store : Type := mkStore {
  locations : list (list entry);
  disk : files
}.

(** The page's own variables. [selected_sample] is [None] for an empty
    field and the integer it parses to otherwise. *)
Record SidePage : Type := mkSidePage {
  selected_sample : option Z;
  selected_camera : string;
  x_entry_var : string;
  y_entry_var : string
}.

(** [self.location_files], set once in [SidePage.__init__]. *)
Definition location_files : list string := ["samples_loc.txt"; "samples_loc.txt"]%string.

(** The variables as [create_side_page_ui] sets them. *)
Definition SidePage_init : SidePage :=
  {| selected_sample := Some 1; selected_camera := "Right";
     x_entry_var := "0500"; y_entry_var := "29000" |}.

(** [cmd.strip('g\r\n')[1:]] *)
Definition display_value (cmd : string) : string :=
  PyStr.tail1 (PyStr.strip (String "g" PyStr.CRLF) cmd).

(** [SidePage.set_x_and_y(col, row)] *)
Definition set_x_and_y (col row : string) (self : SidePage) : SidePage :=
  let co_x := display_value col in
  let co_y := display_value row in
  {| selected_sample := selected_sample self;
     selected_camera := selected_camera self;
     x_entry_var := co_x; y_entry_var := co_y |}.

(** [SidePage.on_combobox_change()] *)
Definition on_combobox_change (self : SidePage) (st : Store) : py_result SidePage :=
  match selected_sample self with
  | Some selected_option =>
      let current_camera := convert_camera (selected_camera self) in
      table ← py_getitem (locations st) current_camera;
      '(y, x) ← py_getitem table (selected_option - 1);
      Ok (set_x_and_y x y self)
  | None => Ok self
  end.

(** The bytes [save_locs] writes for a table. *)
Fixpoint file_bytes (table : list entry) : string :=
  match table with
  | [] => EmptyString
  | row :: table' =>
      Cmd.line row.1 +:+ Cmd.line row.2 +:+ file_bytes table'
  end.

(** [SidePage.save_locs()]: the file is opened with mode ['wb'], so its
    former content is lost. *)
Definition save_locs (self : SidePage) (st : Store) : py_result Store :=
  let current_camera := convert_camera (selected_camera self) in
  path ← py_getitem location_files current_camera;
  table ← py_getitem (locations st) current_camera;
  Ok {| locations := locations st;
        disk := <[path := file_bytes table]> (disk st) |}.

(** [SidePage.update_locs()] *)
Definition update_locs (self : SidePage) (st : Store) : py_result Store :=
  let x := x_entry_var self in
  let y := y_entry_var self in
  match selected_sample self with
  | None => Raise ValueError
  | Some n =>
      let current_sample := n - 1 in
      let current_camera := convert_camera (selected_camera self) in
      let row := Cmd.g2 y in
      let col := Cmd.g1 x in
      table ← py_getitem (locations st) current_camera;
      table' ← py_setitem table current_sample (row, col);
      locations' ← py_setitem (locations st) current_camera table';
      save_locs self {| locations := locations'; disk := disk st |}
  end.

(** [SidePage.go_to()]: the two commands written to the serial port. *)
Definition go_to (self : SidePage) : list string :=
  [Cmd.line (Cmd.g2 (y_entry_var self)); Cmd.line (Cmd.g1 (x_entry_var self))].

(** ** The run page *)

(** Text of [info_label]. *)
Inductive info_text : Type :=
  | InfoWait                         (* 'Wait for the XY stage to stop moving \nThen press start' *)
  | InfoRunning (cycles_made : Z)    (* f'Program running. \n{self.count} cycles made' *)
  | InfoCycle (number : Z).          (* f'Program running \nCycle number: {self.count}' *)

(** What [run_button] is configured to do. *)
Inductive button_command : Type :=
  | StartCommand                     (* text='Start', command=run_program *)
  | StopCommand.                     (* text='Stop', command=[stop_program, show_frame(MainPage)] *)

(** A [RunPage] object. For each of the three phase variables the record
    holds what [int] makes of its text: [None] when [int] raises
    [ValueError], as it does on the empty text that the entry accepts. *)
Record RunPage : Type := mkRunPage {
  count : Z;
  sample_name : Z;
  phase_duration : option Z;
  phase1_interval : option Z;
  phase2_interval : option Z;
  running : bool;
  start_time : option Z;
  info_label : info_text;
  run_button : button_command;
  options_enabled : bool;
  destroyed : bool
}.

(** [RunPage.__init__] followed by [create_run_page_ui]. *)
Definition RunPage_new : RunPage :=
  {| count := 0; sample_name := 0;
     phase_duration := Some 30; phase1_interval := Some 5;
     phase2_interval := Some 30;
     running := false; start_time := None;
     info_label := InfoWait; run_button := StartCommand;
     options_enabled := true; destroyed := false |}.

(** Observable steps of a run, in the order they happen. *)
Inductive event : Type :=
  | EvLookup (i : Z)      (* row, col = self.controller.locations[1][i] *)
  | EvSleep (ms : Z)      (* self.sleep(ms / 1000) *)
  | EvGoing               (* print('Going'), where the photo is taken *)
  | EvNow (t : Z)         (* datetime.datetime.now() *)
  | EvAfter (ms : Z)      (* self.after(ms, self.run_cycle) *)
  | EvStop.               (* stop_program *)

(** The application as the run page sees it. [pages] is the store of
    [RunPage] objects, an object being known by its position; [frames_RunPage]
    is [self.frames[RunPage]]. The clock counts microseconds. *)
Record App : Type := mkApp {
  pages : list RunPage;
  frames_RunPage : option nat;
  selected_sample_size : Z;
  skip_row : Z;
  app_locations : list (list entry);
  clock : Z;
  suspensions : nat;
  log : list event
}.

Definition with_pages (f : list RunPage → list RunPage) (a : App) : App :=
  {| pages := f (pages a); frames_RunPage := frames_RunPage a;
     selected_sample_size := selected_sample_size a; skip_row := skip_row a;
     app_locations := app_locations a; clock := clock a;
     suspensions := suspensions a; log := log a |}.

Definition with_frames_RunPage (r : option nat) (a : App) : App :=
  {| pages := pages a; frames_RunPage := r;
     selected_sample_size := selected_sample_size a; skip_row := skip_row a;
     app_locations := app_locations a; clock := clock a;
     suspensions := suspensions a; log := log a |}.

Definition emit (e : event) (a : App) : App :=
  {| pages := pages a; frames_RunPage := frames_RunPage a;
     selected_sample_size := selected_sample_size a; skip_row := skip_row a;
     app_locations := app_locations a; clock := clock a;
     suspensions := suspensions a; log := log a ++ [e] |}.

(** The clock after [ms] milliseconds, with one more suspension counted. *)
Definition elapse (ms : Z) (a : App) : App :=
  {| pages := pages a; frames_RunPage := frames_RunPage a;
     selected_sample_size := selected_sample_size a; skip_row := skip_row a;
     app_locations := app_locations a; clock := clock a + ms * 1000;
     suspensions := S (suspensions a); log := log a |}.

Definition the_page (self : nat) (a : App) : RunPage :=
  default RunPage_new (pages a !! self).

Definition update_page (self : nat) (f : RunPage → RunPage) (a : App) : App :=
  with_pages (alter f self) a.

Definition set_count (n : Z) (p : RunPage) : RunPage :=
  {| count := n; sample_name := sample_name p;
     phase_duration := phase_duration p; phase1_interval := phase1_interval p;
     phase2_interval := phase2_interval p; running := running p;
     start_time := start_time p; info_label := info_label p;
     run_button := run_button p; options_enabled := options_enabled p;
     destroyed := destroyed p |}.

Definition set_sample_name (n : Z) (p : RunPage) : RunPage :=
  {| count := count p; sample_name := n;
     phase_duration := phase_duration p; phase1_interval := phase1_interval p;
     phase2_interval := phase2_interval p; running := running p;
     start_time := start_time p; info_label := info_label p;
     run_button := run_button p; options_enabled := options_enabled p;
     destroyed := destroyed p |}.

Definition set_running (b : bool) (t : option Z) (p : RunPage) : RunPage :=
  {| count := count p; sample_name := sample_name p;
     phase_duration := phase_duration p; phase1_interval := phase1_interval p;
     phase2_interval := phase2_interval p; running := b;
     start_time := t; info_label := info_label p;
     run_button := run_button p; options_enabled := options_enabled p;
     destroyed := destroyed p |}.

Definition set_info_label (i : info_text) (p : RunPage) : RunPage :=
  {| count := count p; sample_name := sample_name p;
     phase_duration := phase_duration p; phase1_interval := phase1_interval p;
     phase2_interval := phase2_interval p; running := running p;
     start_time := start_time p; info_label := i;
     run_button := run_button p; options_enabled := options_enabled p;
     destroyed := destroyed p |}.

(** [run_button.config(...)] together with [disable_frame] / [enable_frame]
    on the three option frames. *)
Definition set_controls (c : button_command) (enabled : bool) (p : RunPage) : RunPage :=
  {| count := count p; sample_name := sample_name p;
     phase_duration := phase_duration p; phase1_interval := phase1_interval p;
     phase2_interval := phase2_interval p; running := running p;
     start_time := start_time p; info_label := info_label p;
     run_button := c; options_enabled := enabled;
     destroyed := destroyed p |}.

(** [frame.destroy()] *)
Definition destroy (p : RunPage) : RunPage :=
  {| count := count p; sample_name := sample_name p;
     phase_duration := phase_duration p; phase1_interval := phase1_interval p;
     phase2_interval := phase2_interval p; running := running p;
     start_time := start_time p; info_label := info_label p;
     run_button := run_button p; options_enabled := options_enabled p;
     destroyed := true |}.

(** [App.create_runpage()]: the page in [frames] is removed and destroyed,
    a new [RunPage] object is made and put in its place. *)
Definition create_runpage (a : App) : App :=
  let a :=
    match frames_RunPage a with
    | Some frame => update_page frame destroy (with_frames_RunPage None a)
    | None => a
    end in
  let frame := length (pages a) in
  with_frames_RunPage (Some frame) (with_pages (λ ps, ps ++ [RunPage_new]) a).

(** [RunPage.stop_program()]; the log keeps track of the call. *)
Definition stop_program (self : nat) (a : App) : App :=
  let a := emit EvStop a in
  let a := update_page self (set_controls StartCommand true) a in
  let a := update_page self (set_info_label InfoWait) a in
  create_runpage a.

(** How a call ends: it returns, raises, or never resumes. *)
Inductive outcome (A : Type) : Type :=
  | Returned (x : A)
  | Raised (e : py_error)
  | Suspended.
Arguments Returned {A} x.
Arguments Raised {A} e.
Arguments Suspended {A}.

Definition Run (A : Type) : Type := App → outcome A * App.

#[global] Instance run_ret : MRet Run := λ A x a, (Returned x, a).
#[global] Instance run_bind : MBind Run := λ A B k m a,
  match m a with
  | (Returned x, a') => k x a'
  | (Raised e, a') => (Raised e, a')
  | (Suspended, a') => (Suspended, a')
  end.

Definition modify (f : App → App) : Run unit := λ a, (Returned (), f a).
Definition read {A} (f : App → A) : Run A := λ a, (Returned (f a), a).
Definition lift {A} (r : py_result A) : Run A := λ a,
  match r with
  | Ok x => (Returned x, a)
  | Raise e => (Raised e, a)
  end.

(** [for i in l: body(i)] *)
Fixpoint for_each (l : list Z) (body : Z → Run unit) : Run unit :=
  match l with
  | [] => mret ()
  | i :: l' => body i ≫= λ _, for_each l' body
  end.

(** [range(start, end)] *)
Definition py_range (start stop : Z) : list Z := seqZ start (stop - start).

(** [datetime.timedelta(hours=h)] in microseconds. *)
Definition timedelta_hours (h : Z) : Z := h * 3600 * 1000000.

(** [int(var.get())] for a phase variable. *)
Definition py_int (text : option Z) : py_result Z :=
  match text with
  | Some n => Ok n
  | None => Raise ValueError
  end.

(** [max(interval * 60 - (sample_size * 25), 0)], in seconds. *)
Definition cycle_wait (interval sample_size : Z) : Z :=
  Z.max (interval * 60 - sample_size * 25) 0.

Section Scheduler.

(** While a page sleeps the event loop runs. [stop_at k] tells whether the
    Stop button is pressed during suspension number [k] of the run. *)
Variable stop_at : nat → bool.

(** Whether a callback registered with [after] by a widget is still called
    once that widget has been destroyed. *)
Variable timers_outlive_widget : bool.

(** The Stop button of the page shown belongs to the page in [frames]. *)
Definition press_stop (a : App) : App :=
  match frames_RunPage a with
  | Some frame =>
      match run_button (the_page frame a) with
      | StopCommand => stop_program frame a
      | StartCommand => a
      end
  | None => a
  end.

(** [RunPage.sleep(time)] with [ms = int(time * 1000)]: [self.after]
    registers a timer that sets a variable, and [self.wait_variable] runs
    the event loop until the variable is set. This is where Stop can be
    pressed. The timer belongs to the widget [self]: if [self] is destroyed
    while it waits and its timer is not called any more, the variable is
    never set and the call does not return. *)
Definition sleep (self : nat) (ms : Z) : Run unit := λ a,
  let a := emit (EvSleep ms) a in
  let k := suspensions a in
  let a := elapse ms a in
  let a := if stop_at k then press_stop a else a in
  if destroyed (the_page self a) && negb timers_outlive_widget
  then (Suspended, a)
  else (Returned (), a).

(** The body of the loop of [goto_and_photo_row], for the index [i]. *)
Definition photo_step (self : nat) (i : Z) : Run unit :=
  is_running ← read (λ a, running (the_page self a));
  if is_running : bool then
    table ← read (λ a, py_getitem (app_locations a) 1) ≫= lift;
    _ ← modify (emit (EvLookup i));
    _ ← lift (py_getitem table i);
    _ ← sleep self 500;
    _ ← sleep self 1000;
    _ ← modify (emit EvGoing);
    _ ← modify (λ a, update_page self
                        (λ p, set_sample_name (sample_name p + 1) p) a);
    sleep self 0
  else mret ().

(** [RunPage.goto_and_photo_row(start, end)] *)
Definition goto_and_photo_row (self : nat) (start stop : Z) : Run unit :=
  for_each (py_range start stop) (photo_step self).

(** [RunPage.run_cycle()] *)
Definition run_cycle (self : nat) : Run unit :=
  is_running ← read (λ a, running (the_page self a));
  if is_running : bool then
    sample_size ← read selected_sample_size;
    skip_row1 ← read skip_row;
    _ ← modify (update_page self (set_sample_name 1));
    let cols := sample_size `div` 2 in
    _ ← modify (λ a, update_page self (λ p, set_count (count p + 1) p) a);
    _ ← modify (λ a, update_page self (λ p, set_info_label (InfoCycle (count p)) p) a);
    _ ← sleep self 0;
    _ ← goto_and_photo_row self skip_row1 (cols + skip_row1);
    _ ← goto_and_photo_row self (12 - skip_row1 - cols) (12 - skip_row1);
    time_now ← read clock;
    _ ← modify (emit (EvNow time_now));
    start ← read (λ a, match start_time (the_page self a) with
                       | Some t => Ok t
                       | None => Raise TypeError
                       end) ≫= lift;
    duration ← read (λ a, py_int (phase_duration (the_page self a))) ≫= lift;
    _ ← (if time_now - start <? timedelta_hours duration then
           interval ← read (λ a, py_int (phase1_interval (the_page self a))) ≫= lift;
           sleep self (cycle_wait interval sample_size * 1000)
         else
           interval ← read (λ a, py_int (phase2_interval (the_page self a))) ≫= lift;
           sleep self (cycle_wait interval sample_size * 1000));
    modify (emit (EvAfter 1000))
  else mret ().

(** What [run_cycle] does once the cycle has been counted: the rest of its
    body, from the update of the label on. *)
Definition cycle_rest (self : nat) (sample_size skip_row1 : Z) : Run unit :=
  let cols := sample_size `div` 2 in
  _ ← modify (λ a, update_page self (λ p, set_info_label (InfoCycle (count p)) p) a);
  _ ← sleep self 0;
  _ ← goto_and_photo_row self skip_row1 (cols + skip_row1);
  _ ← goto_and_photo_row self (12 - skip_row1 - cols) (12 - skip_row1);
  time_now ← read clock;
  _ ← modify (emit (EvNow time_now));
  start ← read (λ a, match start_time (the_page self a) with
                     | Some t => Ok t
                     | None => Raise TypeError
                     end) ≫= lift;
  duration ← read (λ a, py_int (phase_duration (the_page self a))) ≫= lift;
  _ ← (if time_now - start <? timedelta_hours duration then
         interval ← read (λ a, py_int (phase1_interval (the_page self a))) ≫= lift;
         sleep self (cycle_wait interval sample_size * 1000)
       else
         interval ← read (λ a, py_int (phase2_interval (the_page self a))) ≫= lift;
         sleep self (cycle_wait interval sample_size * 1000));
  modify (emit (EvAfter 1000)).

(** [RunPage.run_program()] *)
Definition run_program (self : nat) : Run unit :=
  _ ← modify (update_page self (set_controls StopCommand false));
  _ ← modify (λ a, update_page self (λ p, set_info_label (InfoRunning (count p)) p) a);
  _ ← modify (λ a, update_page self (set_running true (Some (clock a))) a);
  run_cycle self.

End Scheduler.

(** The indices looked up in a log, in order. *)
Definition visited (l : list event) : list Z :=
  omap (λ e, match e with EvLookup i => Some i | _ => None end) l.

(** The application at start-up: one run page, nothing logged. *)
Definition App_start (sample_size skip : Z) (table : list entry) : App :=
  {| pages := [RunPage_new]; frames_RunPage := Some 0%nat;
     selected_sample_size := sample_size; skip_row := skip;
     app_locations := [table; table]; clock := 0;
     suspensions := 0; log := [] |}.

(** ** Predicates used in the statements *)

(** Every character of [s] satisfies [P]. *)
Fixpoint all_chars (P : ascii → bool) (s : string) : bool :=
  match s with
  | EmptyString => true
  | String c s' => P c && all_chars P s'
  end.

Definition is_digit (c : ascii) : bool :=
  let n := N_of_ascii c in (48 <=? n)%N && (n <=? 57)%N.

(** A stored command: a letter [g], an axis digit, decimal digits. *)
Definition is_command (s : string) : bool :=
  match s with
  | String "g" (String axis digits) => is_digit axis && all_chars is_digit digits
  | _ => false
  end.

(** The stored pair for a coordinate, as [update_locs] builds it from the
    two entry fields holding [str(x)] and [str(y)]. *)
Definition encode_move (c : Z * Z) : entry :=
  (Cmd.g2 (PyStr.str c.2), Cmd.g1 (PyStr.str c.1)).

(** The coordinate shown for a stored pair: the numbers [set_x_and_y]
    puts in the two entry fields. *)
Definition decode_display (e : entry) : option (Z * Z) :=
  let shown := set_x_and_y e.2 e.1 SidePage_init in
  x ← PyStr.decimal_value (x_entry_var shown);
  y ← PyStr.decimal_value (y_entry_var shown);
  Some (x, y).

Definition in_travel (c : Z * Z) : Prop :=
  0 ≤ c.1 ≤ 59000 ∧ 0 ≤ c.2 ≤ 29000.

(** The strings of a table in file order. *)
Definition flat (table : list entry) : list string :=
  table ≫= λ e, [e.1; e.2].

Definition is_command_pair (e : entry) : Prop :=
  is_command e.1 = true ∧ is_command e.2 = true.

Definition no_line_end (c : ascii) : bool :=
  negb (Ascii.eqb c PyStr.LF) && negb (Ascii.eqb c PyStr.CR).

(** The non-empty lines of a file, as [read_sample_locs] counts them. *)
Definition nonempty_lines (data : string) : list string :=
  List.filter (λ b, negb (PyStr.is_empty b)) (PyStr.splitlines data).

(** [e] is a stored pair for the coordinate [c]: the two commands of
    [encode_move c], each with or without a line end of its own (the preset
    table keeps the line ends in its strings, edited entries do not). *)
Definition stores (e : entry) (c : Z * Z) : Prop :=
  ∃ t1 t2 : string,
    (t1 = EmptyString ∨ t1 = PyStr.CRLF) ∧ (t2 = EmptyString ∨ t2 = PyStr.CRLF) ∧
    e = ((encode_move c).1 +:+ t1, (encode_move c).2 +:+ t2).

(** Twelve times the same coordinate, for examples. *)
Definition uniform_table (x y : Z) : list entry := replicate 12 (encode_move (x, y)).

(** The page with a given camera selected. *)
Definition select_camera (camera : string) (self : SidePage) : SidePage :=
  {| selected_sample := selected_sample self; selected_camera := camera;
     x_entry_var := x_entry_var self; y_entry_var := y_entry_var self |}.

Definition nonneg (c : Z * Z) : Prop := 0 ≤ c.1 ∧ 0 ≤ c.2.

(** Two cameras with different tables and nothing on disk yet. *)
Definition two_tables : Store :=
  {| locations := [uniform_table 100 200; uniform_table 300 400]; disk := ∅ |}.

(** ** States and schedules of the run page *)

(** The page [self] is the one in [frames] and a run is going on: this is
    the state [run_program] leaves behind. *)
Definition RunningState (self : nat) (a : App) : Prop :=
  frames_RunPage a = Some self ∧
  running (the_page self a) = true ∧
  run_button (the_page self a) = StopCommand ∧
  destroyed (the_page self a) = false ∧
  is_Some (start_time (the_page self a)).

(** The page in [frames] waits for Start. *)
Definition IdleState (a : App) : Prop :=
  ∃ frame, frames_RunPage a = Some frame ∧
    running (the_page frame a) = false ∧
    run_button (the_page frame a) = StartCommand ∧
    options_enabled (the_page frame a) = true ∧
    destroyed (the_page frame a) = false.

(** The three phase fields hold integers. *)
Definition phases_entered (p : RunPage) (duration interval1 interval2 : Z) : Prop :=
  phase_duration p = Some duration ∧
  phase1_interval p = Some interval1 ∧
  phase2_interval p = Some interval2.

(** The choices the main page offers. *)
Definition valid_config (sample_size skip : Z) : Prop :=
  sample_size ∈ [4; 6; 8; 10; 12] ∧ skip ∈ [0; 1].

(** The right camera has a table of twelve entries. *)
Definition twelve_slots (a : App) : Prop :=
  ∃ table, py_getitem (app_locations a) 1 = Ok table ∧ length table = 12%nat.

(** Stop is never pressed. *)
Definition undisturbed (stop_at : nat → bool) : Prop := ∀ k, stop_at k = false.

(** The steps of one visit of [goto_and_photo_row]. *)
Definition visit_events (i : Z) : list event :=
  [EvLookup i; EvSleep 500; EvSleep 1000; EvGoing; EvSleep 0].

(** The page is running, alive, and the right camera has its table. *)
Definition steady (self : nat) (a : App) : Prop :=
  running (the_page self a) = true ∧
  destroyed (the_page self a) = false ∧
  twelve_slots a.

(** The application after one visit that nothing disturbs. *)
Definition visit (self : nat) (i : Z) (a : App) : App :=
  let a := emit (EvLookup i) a in
  let a := elapse 500 (emit (EvSleep 500) a) in
  let a := elapse 1000 (emit (EvSleep 1000) a) in
  let a := emit EvGoing a in
  let a := update_page self (λ p, set_sample_name (sample_name p + 1) p) a in
  elapse 0 (emit (EvSleep 0) a).

(** [a'] differs from [a] at most by the clock, the log, the number of
    suspensions and the sample counter of [self]. *)
Definition same_setup (self : nat) (a a' : App) : Prop :=
  set_sample_name 0 (the_page self a') = set_sample_name 0 (the_page self a) ∧
  app_locations a' = app_locations a ∧
  selected_sample_size a' = selected_sample_size a ∧
  skip_row a' = skip_row a ∧
  frames_RunPage a' = frames_RunPage a ∧
  length (pages a') = length (pages a).

(** The page of [self] once [run_cycle] has started a cycle. *)
Definition cycle_page (p : RunPage) : RunPage :=
  set_info_label (InfoCycle (count p + 1)) (set_count (count p + 1) (set_sample_name 1 p)).

(** The application once [run_program] has set up the page [self], just
    before it calls [run_cycle]. *)
Definition started (self : nat) (a : App) : App :=
  let a := update_page self (set_controls StopCommand false) a in
  let a := update_page self (λ p, set_info_label (InfoRunning (count p)) p) a in
  update_page self (set_running true (Some (clock a))) a.

(** The application when Start has just been pressed on its first page. *)
Definition App_running (sample_size skip : Z) (table : list entry) : App :=
  started 0 (App_start sample_size skip table).

Definition never : nat → bool := λ _, false.

(** Stop pressed during suspension [n] only. *)
Definition only_at (n : nat) : nat → bool := λ k, Nat.eqb k n.

(** ** Reasoning about runs under any schedule *)

(** From a state in [P] the call [m] ends in [P] when it returns or raises,
    and in [H] when it never resumes. *)
Definition triple {A} (P H : App → Prop) (m : Run A) : Prop :=
  ∀ a, P a →
    match (m a).1 with
    | Suspended => H (m a).2
    | _ => P (m a).2
    end.

(** The page [self] exists and its cycle counter is [c]. *)
Definition counted (self : nat) (c : Z) (a : App) : Prop :=
  is_Some (pages a !! self) ∧ count (the_page self a) = c.

(** The run of [self] goes on: since the log was [log0] Stop has not been
    pressed, and its button is the one of the page in [frames]. *)
Definition active (self : nat) (log0 : list event) (a : App) : Prop :=
  frames_RunPage a = Some self ∧
  run_button (the_page self a) = StopCommand ∧
  destroyed (the_page self a) = false ∧
  ∃ steps, log a = log0 ++ steps ∧ (EvStop ∉ steps).

(** The run of [self] was stopped during a suspension and has not resumed:
    the stop is the last step logged, [self] is destroyed with its flag
    [running] as it was, and a new page is in [frames]. *)
Definition halted (self : nat) (log0 : list event) (a : App) : Prop :=
  ∃ steps ms fresh,
    log a = log0 ++ steps ++ [EvSleep ms; EvStop] ∧ (EvStop ∉ steps) ∧
    destroyed (the_page self a) = true ∧
    frames_RunPage a = Some fresh ∧ fresh ≠ self ∧
    the_page fresh a = RunPage_new.

(** ** The rest of the coordinate page and of the file format *)

(** [s] is a stored command that shows as [digits]: the letter [g], an
    axis digit, the digits, and possibly a line end of its own. *)
Definition shows (s digits : string) : Prop :=
  ∃ axis tail,
    is_digit axis = true ∧ all_chars is_digit digits = true ∧
    (tail = EmptyString ∨ tail = PyStr.CRLF) ∧
    s = String "g" (String axis digits) +:+ tail.

(** A string that a table read from a file can hold and that survives
    being written and read again: not empty, without line ends,
    well-formed UTF-8, without trailing NUL. *)
Definition loadable (s : string) : Prop :=
  PyStr.is_empty s = false ∧
  all_chars no_line_end s = true ∧
  PyStr.utf8_run PyStr.Boundary s = true ∧
  np_str s = s.

Definition loadable_pair (e : entry) : Prop := loadable e.1 ∧ loadable e.2.

(** CR or LF. *)
Definition is_line_end (c : ascii) : bool :=
  Ascii.eqb c PyStr.LF || Ascii.eqb c PyStr.CR.

(** A non-empty run of CR and LF characters, as it may separate two lines
    of a file: CR LF, LF alone, CR alone, or several of them (blank lines). *)
Definition is_terminator (t : string) : bool :=
  negb (PyStr.is_empty t) && all_chars is_line_end t.

(** The file made of the given lines, each followed by its terminator. *)
Fixpoint join_lines (lines seps : list string) : string :=
  match lines, seps with
  | l :: lines', t :: seps' => l +:+ t +:+ join_lines lines' seps'
  | _, _ => EmptyString
  end.

(** States of the UTF-8 reader that reading can reach. *)
Definition utf8_state_ok (st : PyStr.utf8_state) : Prop :=
  match st with
  | PyStr.Boundary => True
  | PyStr.Need lo _ _ => (128 ≤ lo)%N
  end.

(** The terminators of the lines of a file: each a non-empty run of CR and
    LF, except that the last line may have none. *)
Fixpoint terminators (seps : list string) : bool :=
  match seps with
  | [] => true
  | t :: seps' =>
      match seps' with
      | [] => PyStr.is_empty t || is_terminator t
      | _ :: _ => is_terminator t && terminators seps'
      end
  end.

(** ** The rest of the run page *)

(** Exactly one page of the store is alive, the last one made, and it is
    the page in [frames]; all the pages before it are destroyed. *)
Definition one_live_page (a : App) : Prop :=
  ∃ frame, frames_RunPage a = Some frame ∧
    length (pages a) = S frame ∧
    ∀ i p, pages a !! i = Some p → destroyed p = bool_decide (i ≠ frame).

(** The end of [run_cycle], from the reading of the clock on. *)
Definition cycle_tail (stop_at : nat → bool) (timers_outlive_widget : bool)
    (self : nat) (sample_size : Z) : Run unit :=
  time_now ← read clock;
  _ ← modify (emit (EvNow time_now));
  start ← read (λ a, match start_time (the_page self a) with
                     | Some t => Ok t
                     | None => Raise TypeError
                     end) ≫= lift;
  duration ← read (λ a, py_int (phase_duration (the_page self a))) ≫= lift;
  _ ← (if time_now - start <? timedelta_hours duration then
         interval ← read (λ a, py_int (phase1_interval (the_page self a))) ≫= lift;
         sleep stop_at timers_outlive_widget self (cycle_wait interval sample_size * 1000)
       else
         interval ← read (λ a, py_int (phase2_interval (the_page self a))) ≫= lift;
         sleep stop_at timers_outlive_widget self (cycle_wait interval sample_size * 1000));
  modify (emit (EvAfter 1000)).

(** The page [self] exists and its sample counter is [k]. *)
Definition named (self : nat) (k : Z) (a : App) : Prop :=
  is_Some (pages a !! self) ∧ sample_name (the_page self a) = k.

(** The seconds [run_cycle] waits at the end of a cycle, or the exception
    that reading the phase fields raises: the duration is read first, then
    the interval of the phase the run is in, and that one only. *)
Definition phase_wait (p : RunPage) (time_now start sample_size : Z) : py_result Z :=
  duration ← py_int (phase_duration p);
  interval ← py_int (if time_now - start <? timedelta_hours duration
                     then phase1_interval p else phase2_interval p);
  Ok (cycle_wait interval sample_size).

(** The user types [text] in the entry of the phase duration; [None] is the
    empty entry. *)
Definition set_phase_duration (text : option Z) (p : RunPage) : RunPage :=
  {| count := count p; sample_name := sample_name p;
     phase_duration := text; phase1_interval := phase1_interval p;
     phase2_interval := phase2_interval p; running := running p;
     start_time := start_time p; info_label := info_label p;
     run_button := run_button p; options_enabled := options_enabled p;
     destroyed := destroyed p |}.

(** The fields of a run page that no step of a cycle and no Stop assigns. *)
Definition settings (p : RunPage) : bool * option Z * option Z * option Z * option Z :=
  (running p, start_time p, phase_duration p, phase1_interval p, phase2_interval p).

(** The page [self] exists with the settings of [p0], and the right camera
    has a table of twelve entries. *)
Definition tracked (self : nat) (p0 : RunPage) (a : App) : Prop :=
  is_Some (pages a !! self) ∧
  settings (the_page self a) = settings p0 ∧
  twelve_slots a.

(** From a tracked state the call [m] does not raise; it looks up the
    [indices] in order when it returns, and the first few of them when it
    never resumes. *)
Definition traces {A} (self : nat) (p0 : RunPage) (m : Run A) (indices : list Z) : Prop :=
  ∀ a, tracked self p0 a →
    match m a with
    | (Returned _, a') =>
        tracked self p0 a' ∧ visited (log a') = visited (log a) ++ indices
    | (Suspended, a') =>
        ∃ done, done `prefix_of` indices ∧ visited (log a') = visited (log a) ++ done
    | (Raised _, _) => False
    end.

(** * Properties *)

(** ** Strings *)

Section StringFacts.
Import PyStr.

Lemma all_chars_app P s t :
  all_chars P (s +:+ t) = all_chars P s && all_chars P t.
Proof.
  induction s as [|c s IH]; simpl; [done|].
  by rewrite IH, andb_assoc.
Qed.

Lemma all_chars_impl (P Q : ascii → bool) s :
  (∀ c, P c = true → Q c = true) → all_chars P s = true → all_chars Q s = true.
Proof.
  intros HPQ. induction s as [|c s IH]; simpl; [done|].
  intros [Hc Hs]%andb_prop. rewrite (HPQ _ Hc). by apply IH.
Qed.

Lemma digits_of_uint d : all_chars is_digit (NilEmpty.string_of_uint d) = true.
Proof. induction d; simpl; auto. Qed.

Lemma str_digits n : 0 ≤ n → all_chars is_digit (str n) = true.
Proof.
  intros Hn. unfold str. destruct n as [|p|p]; simpl; [done| |lia].
  apply digits_of_uint.
Qed.

Lemma str_nonempty n : is_empty (str n) = false.
Proof.
  unfold str. destruct n as [|p|p]; simpl; [done| |done].
  pose proof (DecimalPos.Unsigned.to_uint_nonnil p) as Hp.
  by destruct (Pos.to_uint p).
Qed.

Lemma decimal_value_str n : decimal_value (str n) = Some n.
Proof.
  unfold decimal_value. rewrite str_nonempty. unfold str.
  rewrite NilEmpty.isi. simpl. by rewrite DecimalZ.of_to.
Qed.

Lemma str_inj n m : str n = str m → n = m.
Proof.
  intros H. apply (f_equal decimal_value) in H.
  rewrite !decimal_value_str in H. congruence.
Qed.

(** Stripping on the right leaves a string that holds none of the
    characters alone, and removes a tail made only of them. *)
Lemma rstrip_clean chars s :
  all_chars (λ c, negb (mem c chars)) s = true → rstrip chars s = s.
Proof.
  induction s as [|c s IH]; simpl; [done|].
  intros [Hc Hs]%andb_prop. rewrite (IH Hs).
  apply negb_true_iff in Hc. by rewrite Hc, andb_false_r.
Qed.

Lemma rstrip_all chars t :
  all_chars (λ c, mem c chars) t = true → rstrip chars t = EmptyString.
Proof.
  induction t as [|c t IH]; simpl; [done|].
  intros [Hc Ht]%andb_prop. by rewrite (IH Ht), Hc.
Qed.

Lemma rstrip_app chars s t :
  all_chars (λ c, negb (mem c chars)) s = true →
  all_chars (λ c, mem c chars) t = true →
  rstrip chars (s +:+ t) = s.
Proof.
  intros Hs Ht. induction s as [|c s IH]; simpl.
  - by apply rstrip_all.
  - simpl in Hs. apply andb_prop in Hs as [Hc Hs]. rewrite (IH Hs).
    apply negb_true_iff in Hc. by rewrite Hc, andb_false_r.
Qed.

Lemma digit_not_stripped chars c :
  all_chars (λ d, negb (is_digit d)) chars = true →
  is_digit c = true → negb (mem c chars) = true.
Proof.
  intros Hchars Hc. induction chars as [|d chars IH]; simpl; [done|].
  simpl in Hchars. apply andb_prop in Hchars as [Hd Hchars].
  rewrite negb_orb, (IH Hchars), andb_true_r.
  destruct (Ascii.eqb_spec c d) as [->|]; [|done].
  by rewrite Hc in Hd.
Qed.

Lemma is_digit_width c : is_digit c = true → utf8_width c = 1%nat.
Proof.
  unfold is_digit, utf8_width. intros [H1 H2]%andb_prop.
  apply N.leb_le in H2.
  destruct (N.ltb_spec (N_of_ascii c) 128); [done|lia].
Qed.

Lemma strip_command chars axis digits tail :
  mem "g" chars = true →
  all_chars (λ d, negb (is_digit d)) chars = true →
  is_digit axis = true → all_chars is_digit digits = true →
  all_chars (λ c, mem c chars) tail = true →
  tail1 (strip chars (String "g" (String axis digits) +:+ tail)) = digits.
Proof.
  intros Hg Hset Haxis Hdigits Htail. unfold strip.
  pose proof (digit_not_stripped chars axis Hset Haxis) as Hax.
  assert (lstrip chars (String "g" (String axis digits) +:+ tail)
          = String axis digits +:+ tail) as ->.
  { simpl. rewrite Hg.
    apply negb_true_iff in Hax. by rewrite Hax. }
  rewrite rstrip_app; [| |done].
  - cbn [tail1]. rewrite (is_digit_width _ Haxis). done.
  - cbn [all_chars]. rewrite Hax. simpl.
    eapply all_chars_impl; [|exact Hdigits].
    intros c Hc. by apply digit_not_stripped.
Qed.

(** What the entry field shows for a stored command, with or without the
    line end. *)
Lemma display_value_command axis digits tail :
  is_digit axis = true → all_chars is_digit digits = true →
  tail = EmptyString ∨ tail = CRLF →
  display_value (String "g" (String axis digits) +:+ tail) = digits.
Proof.
  intros Haxis Hdigits Htail. unfold display_value.
  apply strip_command; [done|done|done|done|].
  by destruct Htail as [-> | ->].
Qed.


Lemma command_chars s :
  is_command s = true →
  all_chars (λ c, is_digit c || Ascii.eqb c "g") s = true.
Proof.
  destruct s as [|[[] [] [] [] [] [] [] []] [|axis digits]]; simpl; try done.
  intros [Haxis Hdigits]%andb_prop. rewrite Haxis. simpl.
  eapply all_chars_impl; [|exact Hdigits]. intros c ->. done.
Qed.

Lemma command_nonempty s : is_command s = true → is_empty s = false.
Proof. by destruct s. Qed.

Lemma command_inv s :
  is_command s = true →
  ∃ axis digits, s = String "g" (String axis digits) ∧
    is_digit axis = true ∧ all_chars is_digit digits = true.
Proof.
  destruct s as [|[[] [] [] [] [] [] [] []] [|axis digits]]; simpl; try done.
  intros [Haxis Hdigits]%andb_prop. by exists axis, digits.
Qed.

Lemma ascii_valid s :
  all_chars (λ c, (N_of_ascii c <? 128)%N) s = true → utf8_run Boundary s = true.
Proof.
  induction s as [|c s IH]; simpl; [done|].
  intros [Hc Hs]%andb_prop. unfold utf8_lead. rewrite Hc. by apply IH.
Qed.

Lemma command_decode s : is_command s = true → decode s = Ok s.
Proof.
  intros Hs. unfold decode. rewrite ascii_valid; [done|].
  eapply all_chars_impl; [|exact (command_chars s Hs)].
  intros c [Hc|Hc]%orb_prop.
  - unfold is_digit in Hc. apply andb_prop in Hc as [_ Hc].
    apply N.leb_le in Hc. apply N.ltb_lt. lia.
  - apply Ascii.eqb_eq in Hc as ->. done.
Qed.

Lemma command_rstrip chars s :
  all_chars (λ c, negb (is_digit c) && negb (Ascii.eqb c "g")) chars = true →
  is_command s = true → rstrip chars s = s.
Proof.
  intros Hchars Hs. apply rstrip_clean.
  eapply all_chars_impl; [|exact (command_chars s Hs)].
  intros c Hc. apply negb_true_iff.
  induction chars as [|d chars IH]; simpl; [done|].
  simpl in Hchars. apply andb_prop in Hchars as [Hd Hchars].
  rewrite (IH Hchars), orb_false_r.
  destruct (Ascii.eqb_spec c d) as [->|]; [|done].
  apply andb_prop in Hd as [Hd1 Hd2].
  apply negb_true_iff in Hd1, Hd2. by rewrite Hd1, Hd2 in Hc.
Qed.

Lemma append_cons c s t : String c s +:+ t = String c (s +:+ t).
Proof. reflexivity. Qed.

Lemma append_empty_r s : s +:+ EmptyString = s.
Proof. induction s as [|c s IH]; [done|by rewrite append_cons, IH]. Qed.

Lemma append_assoc s t u : (s +:+ t) +:+ u = s +:+ t +:+ u.
Proof. induction s as [|c s IH]; [done|by rewrite !append_cons, IH]. Qed.

(** A line without line ends, followed by CR LF, is the next line read. *)
Lemma splitlines_from_line cur l rest :
  all_chars no_line_end l = true →
  splitlines_from cur (l +:+ CRLF +:+ rest)
  = (cur +:+ l) :: splitlines_from EmptyString rest.
Proof.
  revert cur. induction l as [|c l IH]; intros cur Hl.
  - by rewrite append_empty_r.
  - simpl in Hl. apply andb_prop in Hl as [Hc Hl].
    apply andb_prop in Hc as [Hc1 Hc2].
    apply negb_true_iff in Hc1, Hc2.
    rewrite append_cons. cbn [splitlines_from]. rewrite Hc1, Hc2.
    rewrite (IH _ Hl). by rewrite append_assoc.
Qed.

Lemma command_no_line_end s :
  is_command s = true →
  all_chars no_line_end s = true.
Proof.
  intros Hs. eapply all_chars_impl; [|exact (command_chars s Hs)].
  unfold no_line_end. intros c [Hc|Hc]%orb_prop.
  - unfold is_digit in Hc. apply andb_prop in Hc as [Hc _].
    apply N.leb_le in Hc.
    destruct (Ascii.eqb_spec c LF) as [->|]; [done|].
    destruct (Ascii.eqb_spec c CR) as [->|]; done.
  - apply Ascii.eqb_eq in Hc as ->. done.
Qed.

End StringFacts.

(** ** Reading a location file *)

Section FileFacts.
Import PyStr.

Lemma py_bind_ok {A B} (a : A) (k : A → py_result B) : Ok a ≫= k = k a.
Proof. reflexivity. Qed.

Lemma py_mapM_ok {A B} (f : A → py_result B) l l' :
  mapM f l = Ok l' → Forall2 (λ a b, f a = Ok b) l l'.
Proof.
  revert l'. induction l as [|a l IH]; intros l'; cbn.
  - intros [= <-]. constructor.
  - destruct (f a) as [b|] eqn:Hfa; [|done]. cbn.
    destruct (mapM f l) as [bs|] eqn:Hl; [|done]. cbn.
    intros [= <-]. constructor; [done|by apply IH].
Qed.

Lemma py_mapM_id {A} (f : A → py_result A) l :
  Forall (λ a, f a = Ok a) l → mapM f l = Ok l.
Proof.
  induction 1 as [|a l Ha _ IH]; cbn; [done|]. by rewrite Ha, IH.
Qed.

Lemma flat_cons e table : flat (e :: table) = e.1 :: e.2 :: flat table.
Proof. reflexivity. Qed.

Lemma file_bytes_cons e table :
  file_bytes (e :: table) = e.1 +:+ CRLF +:+ e.2 +:+ CRLF +:+ file_bytes table.
Proof.
  cbn [file_bytes]. unfold Cmd.line. by rewrite !append_assoc.
Qed.

Lemma nonempty_lines_cons l t rest :
  is_command l = true → t = EmptyString ∨ t = CRLF →
  nonempty_lines ((l +:+ t) +:+ CRLF +:+ rest) = l :: nonempty_lines rest.
Proof.
  intros Hl Ht. unfold nonempty_lines, splitlines.
  assert (splitlines_from EmptyString ((l +:+ t) +:+ CRLF +:+ rest)
          = l :: (if is_empty t then [] else [EmptyString])
              ++ splitlines_from EmptyString rest) as ->.
  { destruct Ht as [-> | ->].
    - rewrite append_empty_r.
      by rewrite splitlines_from_line by by apply command_no_line_end.
    - rewrite append_assoc.
      rewrite splitlines_from_line by by apply command_no_line_end.
      pose proof (splitlines_from_line EmptyString EmptyString rest eq_refl) as H.
      change (EmptyString +:+ CRLF +:+ rest) with (CRLF +:+ rest) in H.
      by rewrite H. }
  cbn [List.filter]. rewrite (command_nonempty l Hl). cbn [negb].
  f_equal. by destruct Ht as [-> | ->].
Qed.

Lemma flat_commands table :
  Forall is_command_pair table → Forall (λ s, is_command s = true) (flat table).
Proof.
  induction 1 as [|e table [H1 H2] _ IH]; [constructor|].
  rewrite flat_cons. by repeat constructor.
Qed.

Lemma flat_length table : length (flat table) = (2 * length table)%nat.
Proof.
  induction table as [|e table IH]; [done|].
  rewrite flat_cons. cbn [length]. rewrite IH. lia.
Qed.

Lemma rows_of_flat table : rows_of (flat table) = table.
Proof.
  induction table as [|[r c] table IH]; [done|].
  rewrite flat_cons. cbn [rows_of fst snd]. by rewrite IH.
Qed.

Lemma filter_all {A} (f : A → bool) l :
  Forall (λ a, f a = true) l → List.filter f l = l.
Proof. induction 1 as [|a l Ha _ IH]; simpl; [done|]. by rewrite Ha, IH. Qed.

Lemma fmap_id_on {A} (f : A → A) l :
  Forall (λ a, f a = a) l → f <$> l = l.
Proof. induction 1 as [|a l Ha _ IH]; cbn; [done|]. by rewrite Ha, IH. Qed.

(** A file whose non-empty lines are the strings of a table of twelve
    command pairs reads as that table. *)
Lemma read_lines (fs : files) filename data table :
  fs !! filename = Some data →
  nonempty_lines data = flat table →
  Forall is_command_pair table → length table = 12%nat →
  read_sample_locs fs filename = Ok table.
Proof.
  intros Hfile Hlines Htable Hlen. unfold read_sample_locs. rewrite Hfile.
  fold (nonempty_lines data). rewrite Hlines.
  pose proof (flat_commands table Htable) as Hflat.
  rewrite py_mapM_id.
  2:{ eapply Forall_impl; [exact Hflat|]. intros s Hs. cbn beta.
      rewrite command_decode by done. cbn.
      by rewrite command_rstrip. }
  rewrite py_bind_ok. unfold reshape_12_2.
  rewrite flat_length, Hlen. cbn [Nat.eqb Nat.mul Nat.add].
  f_equal. rewrite fmap_id_on; [apply rows_of_flat|].
  eapply Forall_impl; [exact Hflat|]. intros s Hs. cbn beta.
  unfold np_str. by apply command_rstrip.
Qed.

End FileFacts.

(** ** The coordinate page *)

Section CoordinatePage.
Import PyStr.

Lemma is_command_intro axis digits :
  is_digit axis = true → all_chars is_digit digits = true →
  is_command (String "g" (String axis digits)) = true.
Proof. intros Haxis Hdigits. cbn [is_command]. by rewrite Haxis, Hdigits. Qed.

Lemma encode_move_commands c :
  0 ≤ c.1 → 0 ≤ c.2 → is_command_pair (encode_move c).
Proof.
  intros Hx Hy. split.
  - apply (is_command_intro "2"); [done|by apply str_digits].
  - apply (is_command_intro "1"); [done|by apply str_digits].
Qed.

Lemma display_value_g2 n tail :
  0 ≤ n → tail = EmptyString ∨ tail = CRLF →
  display_value (Cmd.g2 (str n) +:+ tail) = str n.
Proof.
  intros Hn Htail. apply (display_value_command "2" (str n) tail); [done| |done].
  by apply str_digits.
Qed.

Lemma display_value_g1 n tail :
  0 ≤ n → tail = EmptyString ∨ tail = CRLF →
  display_value (Cmd.g1 (str n) +:+ tail) = str n.
Proof.
  intros Hn Htail. apply (display_value_command "1" (str n) tail); [done| |done].
  by apply str_digits.
Qed.

Lemma decode_display_stores e c :
  0 ≤ c.1 → 0 ≤ c.2 → stores e c → decode_display e = Some c.
Proof.
  destruct c as [x y]. cbn [fst snd]. intros Hx Hy (t1 & t2 & Ht1 & Ht2 & ->).
  unfold decode_display, set_x_and_y, encode_move. cbn [fst snd x_entry_var y_entry_var].
  rewrite display_value_g1, display_value_g2 by done.
  by rewrite !decimal_value_str.
Qed.

Lemma stores_encode_move c : stores (encode_move c) c.
Proof.
  exists EmptyString, EmptyString. split; [by left|]. split; [by left|].
  destruct (encode_move c) as [r k]. cbn [fst snd]. by rewrite !append_empty_r.
Qed.

(** C6: for a coordinate within the travel limits, the entry fields filled
    by [set_x_and_y] from the command pair ["g2" + str(y)], ["g1" + str(x)],
    sent as it is or followed by CR LF, hold [str(x)] and [str(y)] again, and
    these read back as the numbers [x] and [y]. *)
Theorem decode_display_encode_move (self : SidePage) (x y : Z) (tail : string) :
  0 ≤ x ≤ 59000 → 0 ≤ y ≤ 29000 →
  tail = EmptyString ∨ tail = CRLF →
  let row_cmd := Cmd.g2 (str y) +:+ tail in
  let col_cmd := Cmd.g1 (str x) +:+ tail in
  let shown := set_x_and_y col_cmd row_cmd self in
  x_entry_var shown = str x ∧ y_entry_var shown = str y ∧
  decimal_value (x_entry_var shown) = Some x ∧
  decimal_value (y_entry_var shown) = Some y ∧
  decode_display (row_cmd, col_cmd) = Some (x, y).
Proof.
  intros [Hx _] [Hy _] Htail. cbn zeta.
  unfold set_x_and_y. cbn [x_entry_var y_entry_var].
  rewrite display_value_g1, display_value_g2 by done.
  rewrite !decimal_value_str. repeat split.
  apply decode_display_stores; [done|done|].
  by exists tail, tail.
Qed.

Lemma decode_display_encode_move_witness :
  let shown := set_x_and_y (Cmd.g1 (str 59000) +:+ CRLF)
                           (Cmd.g2 (str 29000) +:+ CRLF) SidePage_init in
  x_entry_var shown = str 59000 ∧ y_entry_var shown = str 29000 ∧
  decimal_value (x_entry_var shown) = Some 59000 ∧
  decimal_value (y_entry_var shown) = Some 29000 ∧
  decode_display (Cmd.g2 (str 29000) +:+ CRLF, Cmd.g1 (str 59000) +:+ CRLF)
  = Some (59000, 29000).
Proof.
  apply (decode_display_encode_move SidePage_init 59000 29000 CRLF);
    [lia | lia | right; reflexivity].
Defined.

End CoordinatePage.

(** ** Saving and loading *)

Section SaveLoad.
Import PyStr.

Lemma in_travel_nonneg c : in_travel c → nonneg c.
Proof. unfold in_travel, nonneg. lia. Qed.

Lemma nonempty_lines_stored table coords :
  Forall2 stores table coords → Forall nonneg coords →
  nonempty_lines (file_bytes table) = flat (encode_move <$> coords).
Proof.
  induction 1 as [|e c table coords (t1 & t2 & Ht1 & Ht2 & ->) _ IH];
    intros Hcoords; [done|].
  apply Forall_cons in Hcoords as [[Hx Hy] Hcoords].
  destruct (encode_move_commands c Hx Hy) as [Hr Hk].
  rewrite file_bytes_cons. cbn [fst snd].
  rewrite nonempty_lines_cons by done.
  rewrite nonempty_lines_cons by done.
  by rewrite IH, fmap_cons, flat_cons.
Qed.

Lemma decode_display_table table coords :
  Forall2 stores table coords → Forall nonneg coords →
  mapM decode_display table = Some coords.
Proof.
  intros Hst Hcoords. apply mapM_Some.
  induction Hst as [|e c table coords He _ IH]; [constructor|].
  apply Forall_cons in Hcoords as [[Hx Hy] Hcoords].
  constructor; [by apply decode_display_stores|by apply IH].
Qed.

Lemma stores_encoded coords : Forall2 stores (encode_move <$> coords) coords.
Proof.
  induction coords as [|c coords IH]; [constructor|].
  rewrite fmap_cons. constructor; [apply stores_encode_move|done].
Qed.

Lemma location_file_of camera :
  py_getitem location_files (convert_camera camera) = Ok "samples_loc.txt".
Proof. unfold convert_camera. by destruct (String.eqb camera "Left"). Qed.

(** What [save_locs] does when the selected camera has a table. *)
Lemma save_locs_ok self st table :
  py_getitem (locations st) (convert_camera (selected_camera self)) = Ok table →
  save_locs self st
  = Ok {| locations := locations st;
          disk := <["samples_loc.txt" := file_bytes table]> (disk st) |}.
Proof.
  intros Htable. unfold save_locs.
  by rewrite location_file_of, py_bind_ok, Htable, py_bind_ok.
Qed.

Lemma py_bind_inv {A B} (m : py_result A) (k : A → py_result B) b :
  m ≫= k = Ok b → ∃ a, m = Ok a ∧ k a = Ok b.
Proof. destruct m as [a|e]; [|done]. intros Hk. by exists a. Qed.

Lemma py_index_lt {A} (l : list A) i k :
  py_index l i = Ok k → (k < length l)%nat.
Proof.
  unfold py_index. repeat case_match; intros [= <-]; lia.
Qed.

Lemma py_getitem_setitem {A} (l l' : list A) i v :
  py_setitem l i v = Ok l' → py_getitem l' i = Ok v.
Proof.
  unfold py_setitem, py_getitem. intros (k & Hk & [= <-])%py_bind_inv.
  assert (py_index (<[k:=v]> l) i = Ok k) as ->.
  { unfold py_index in *. by rewrite length_insert. }
  rewrite py_bind_ok, list_lookup_insert_eq; [done|by eapply py_index_lt].
Qed.

(** An entry changed by [update_locs] is the one [on_combobox_change]
    shows when the same sample and camera are selected. *)
Lemma update_locs_then_show self st st' :
  update_locs self st = Ok st' →
  on_combobox_change self st'
  = Ok (set_x_and_y (Cmd.g1 (x_entry_var self)) (Cmd.g2 (y_entry_var self)) self).
Proof.
  unfold update_locs, on_combobox_change.
  destruct (selected_sample self) as [n|]; [|done].
  intros (table & Htable & (table' & Hset & Hrest)%py_bind_inv)%py_bind_inv.
  apply py_bind_inv in Hrest as (locations' & Hlocs & Hsave).
  unfold save_locs in Hsave.
  apply py_bind_inv in Hsave as (path & _ & (saved & _ & [= <-])%py_bind_inv).
  cbn [locations].
  rewrite (py_getitem_setitem _ _ _ _ Hlocs), py_bind_ok.
  by rewrite (py_getitem_setitem _ _ _ _ Hset), py_bind_ok.
Qed.

(** The commands [go_to] sends for entry fields that hold two numbers
    are the ones [set_x_and_y] reads these numbers from. *)
Lemma go_to_commands self x y :
  0 ≤ x → 0 ≤ y →
  x_entry_var self = str x → y_entry_var self = str y →
  ∃ row col, go_to self = [row; col] ∧
    display_value row = str y ∧ display_value col = str x.
Proof.
  intros Hx Hy Hxe Hye. eexists _, _. split; [reflexivity|].
  rewrite Hxe, Hye. unfold Cmd.line.
  split; [apply display_value_g2|apply display_value_g1]; auto.
Qed.

(** C7: a table that stores twelve coordinates within the travel limits,
    written by [save_locs] and read again by [read_sample_locs] from the
    file of the same camera, gives the same twelve coordinates in the same
    order. *)
Theorem save_then_load (self : SidePage) (st : Store)
    (table : list entry) (coords : list (Z * Z)) :
  length coords = 12%nat → Forall in_travel coords →
  Forall2 stores table coords →
  py_getitem (locations st) (convert_camera (selected_camera self)) = Ok table →
  ∃ st' path loaded,
    save_locs self st = Ok st' ∧
    py_getitem location_files (convert_camera (selected_camera self)) = Ok path ∧
    read_sample_locs (disk st') path = Ok loaded ∧
    mapM decode_display loaded = Some coords ∧
    mapM decode_display table = Some coords.
Proof.
  intros Hlen Hcoords Hst Htable.
  assert (Forall nonneg coords) as Hnn
    by (eapply Forall_impl; [exact Hcoords|apply in_travel_nonneg]).
  eexists _, _, (encode_move <$> coords).
  split; [by apply save_locs_ok|].
  split; [apply location_file_of|].
  split; [|split].
  - eapply read_lines.
    + cbn [disk]. apply lookup_insert_eq.
    + by apply nonempty_lines_stored.
    + apply Forall_fmap. eapply Forall_impl; [exact Hnn|].
      intros c [Hx Hy]. by apply encode_move_commands.
    + by rewrite length_fmap.
  - apply decode_display_table; [apply stores_encoded|done].
  - by apply decode_display_table.
Qed.

Lemma save_then_load_witness :
  ∃ st' path loaded,
    save_locs SidePage_init two_tables = Ok st' ∧
    py_getitem location_files (convert_camera (selected_camera SidePage_init)) = Ok path ∧
    read_sample_locs (disk st') path = Ok loaded ∧
    mapM decode_display loaded = Some (replicate 12 (300, 400)) ∧
    mapM decode_display (uniform_table 300 400) = Some (replicate 12 (300, 400)).
Proof.
  apply (save_then_load SidePage_init two_tables
           (uniform_table 300 400) (replicate 12 (300, 400))).
  - reflexivity.
  - repeat constructor; cbn; lia.
  - exact (stores_encoded (replicate 12 (300, 400))).
  - reflexivity.
Defined.

Lemma splitlines_from_no_line_end cur data :
  all_chars no_line_end cur = true →
  Forall (λ l, all_chars no_line_end l = true) (splitlines_from cur data).
Proof.
  revert cur. induction data as [|c rest IH]; intros cur Hcur.
  - cbn. destruct (is_empty cur); by repeat constructor.
  - cbn [splitlines_from].
    destruct (Ascii.eqb c LF) eqn:Hlf; [constructor; [done|by apply IH]|].
    destruct (Ascii.eqb c CR) eqn:Hcr.
    + destruct rest as [|d rest']; [constructor; [done|by apply IH]|].
      destruct (Ascii.eqb d LF) eqn:Hd; [|constructor; [done|by apply IH]].
      constructor; [done|].
      specialize (IH EmptyString eq_refl). cbn [splitlines_from] in IH.
      rewrite Hd in IH. by apply Forall_cons in IH as [_ IH].
    + apply IH. rewrite all_chars_app, Hcur. cbn.
      unfold no_line_end. by rewrite Hlf, Hcr.
Qed.

Lemma rstrip_all_chars P chars s :
  all_chars P s = true → all_chars P (rstrip chars s) = true.
Proof.
  induction s as [|c s IH]; [done|]. cbn [all_chars rstrip].
  intros [Hc Hs]%andb_prop.
  destruct (is_empty (rstrip chars s) && mem c chars); [done|].
  cbn [all_chars]. by rewrite Hc, IH.
Qed.

Lemma rows_of_Forall (P : string → Prop) l :
  Forall P l → Forall (λ e : entry, P e.1 ∧ P e.2) (rows_of l).
Proof.
  intros Hl.
  enough (Forall (λ e : entry, P e.1 ∧ P e.2) (rows_of l) ∧
          ∀ a, P a → Forall (λ e : entry, P e.1 ∧ P e.2) (rows_of (a :: l)))
    as [H _] by done.
  induction Hl as [|b l Hb Hl [IH1 IH2]].
  - split; [constructor|intros; constructor].
  - split; [by apply IH2|].
    intros a Ha. cbn [rows_of]. by constructor.
Qed.

Lemma mapM_raise {A B} (f : A → py_result B) l e :
  mapM f l = Raise e → ∃ a, a ∈ l ∧ f a = Raise e.
Proof.
  induction l as [|a l IH]; cbn; [done|].
  destruct (f a) as [b|e'] eqn:Hfa; cbn.
  - destruct (mapM f l) as [bs|e'']; cbn; [done|].
    intros [= ->]. destruct IH as (a' & Ha' & Hf); [done|].
    exists a'. split; [by right|done].
  - intros [= ->]. exists a. split; [by left|done].
Qed.

(** The strings of a table read from an existing file hold no line end. *)
Lemma read_no_line_end (fs : files) filename data table :
  fs !! filename = Some data →
  read_sample_locs fs filename = Ok table →
  Forall (λ e : entry, all_chars no_line_end e.1 = true ∧
                       all_chars no_line_end e.2 = true) table.
Proof.
  intros Hfile. unfold read_sample_locs. rewrite Hfile.
  fold (nonempty_lines data).
  destruct (mapM _ (nonempty_lines data)) as [strings|] eqn:Hstrings; [|done].
  rewrite py_bind_ok. unfold reshape_12_2. case_match; [|done].
  intros [= <-]. apply (rows_of_Forall (λ s, all_chars no_line_end s = true)).
  apply Forall_fmap. apply py_mapM_ok in Hstrings.
  assert (Forall (λ l, all_chars no_line_end l = true) (nonempty_lines data)) as Hlines.
  { unfold nonempty_lines. apply Forall_forall.
    intros l [Hl _]%list_elem_of_In%filter_In.
    pose proof (splitlines_from_no_line_end EmptyString data eq_refl) as Hall.
    rewrite Forall_forall in Hall. by apply Hall, list_elem_of_In. }
  clear -Hstrings Hlines.
  induction Hstrings as [|b s bs ss Hbs _ IH]; [constructor|].
  apply Forall_cons in Hlines as [Hb Hlines].
  constructor; [|by apply IH]. cbn beta.
  unfold np_str. apply rstrip_all_chars.
  unfold decode in Hbs. destruct (utf8_run Boundary b); [|done].
  cbn in Hbs. injection Hbs as <-. by apply rstrip_all_chars.
Qed.

(** C8: when the file exists, [read_sample_locs] never returns the preset
    table, and unless the file holds exactly 24 non-empty lines the call
    raises ([ValueError] from the reshape, or [UnicodeDecodeError] from a
    line that is not UTF-8): no table is returned. *)
Theorem load_fails_unless_24_lines (fs : files) (filename data : string) :
  fs !! filename = Some data →
  read_sample_locs fs filename ≠ Ok preset_locations ∧
  (length (nonempty_lines data) ≠ 24%nat →
   ∃ e, read_sample_locs fs filename = Raise e ∧
        (e = ValueError ∨ e = UnicodeDecodeError)).
Proof.
  intros Hfile. split.
  - intros Hread. pose proof (read_no_line_end _ _ _ _ Hfile Hread) as Hpreset.
    apply Forall_cons in Hpreset as [[Hrow _] _]. done.
  - intros Hlen. unfold read_sample_locs. rewrite Hfile.
    fold (nonempty_lines data).
    destruct (mapM _ (nonempty_lines data)) as [strings|e] eqn:Hstrings.
    + rewrite py_bind_ok. unfold reshape_12_2.
      apply py_mapM_ok, Forall2_length in Hstrings. rewrite <-Hstrings.
      destruct (Nat.eqb_spec (length (nonempty_lines data)) 24); [done|].
      exists ValueError. by split; [|left].
    + exists e. split; [done|]. right.
      apply mapM_raise in Hstrings as (b & _ & Hb).
      unfold decode in Hb. by destruct (utf8_run Boundary b); [|injection Hb].
Qed.

(** A file of 23 lines: the twelfth pair lacks its column command. *)
Lemma load_fails_unless_24_lines_witness :
  let data := file_bytes (uniform_table 300 400) in
  let short := String.substring 0 (String.length data - 7) data in
  length (nonempty_lines short) = 23%nat ∧
  read_sample_locs {[ "samples_loc.txt" := short ]} "samples_loc.txt"
    ≠ Ok preset_locations ∧
  ∃ e, read_sample_locs {[ "samples_loc.txt" := short ]} "samples_loc.txt" = Raise e ∧
       (e = ValueError ∨ e = UnicodeDecodeError).
Proof.
  cbn zeta. split; [reflexivity|].
  set (short := String.substring _ _ _).
  destruct (load_fails_unless_24_lines {[ "samples_loc.txt" := short ]}
              "samples_loc.txt" short (lookup_singleton_eq _ _)) as [Hpreset Hraise].
  split; [exact Hpreset|].
  apply Hraise. vm_compute. discriminate.
Defined.

(** Without the file the preset table is returned. *)
Lemma load_preset_when_absent (fs : files) filename :
  fs !! filename = None → read_sample_locs fs filename = Ok preset_locations.
Proof. intros H. unfold read_sample_locs. by rewrite H. Qed.

(** C2, as the code has it: both entries of [location_files] name the same
    file, so saving the left camera's table, directly or through
    [update_locs], replaces what was saved for the right camera. *)
Theorem save_left_overwrites_right :
  let right := select_camera "Right" SidePage_init in
  let left := select_camera "Left" SidePage_init in
  ∃ st1 st2 st3 path_left path_right,
    py_getitem location_files (convert_camera "Left") = Ok path_left ∧
    py_getitem location_files (convert_camera "Right") = Ok path_right ∧
    path_left = path_right ∧
    save_locs right two_tables = Ok st1 ∧
    read_sample_locs (disk st1) path_right = Ok (uniform_table 300 400) ∧
    save_locs left st1 = Ok st2 ∧
    read_sample_locs (disk st2) path_right = Ok (uniform_table 100 200) ∧
    update_locs left st1 = Ok st3 ∧
    read_sample_locs (disk st3) path_right
    = Ok (<[0%nat := (Cmd.g2 "29000", Cmd.g1 "0500")]> (uniform_table 100 200)) ∧
    uniform_table 100 200 ≠ uniform_table 300 400.
Proof.
  cbn zeta. eexists _, _, _, _, _.
  split; [reflexivity|]. split; [reflexivity|]. split; [reflexivity|].
  split; [reflexivity|]. split; [vm_compute; reflexivity|].
  split; [reflexivity|]. split; [vm_compute; reflexivity|].
  split; [reflexivity|]. split; [vm_compute; reflexivity|].
  vm_compute. discriminate.
Qed.

End SaveLoad.

(** ** The run page: undisturbed runs *)

Section QuietRun.

Variable stop_at : nat → bool.
Variable timers_outlive_widget : bool.
Variable self : nat.
Hypothesis quiet : undisturbed stop_at.

Local Abbreviation sleep := (sleep stop_at timers_outlive_widget).
Local Abbreviation photo_step := (photo_step stop_at timers_outlive_widget).
Local Abbreviation goto_and_photo_row := (goto_and_photo_row stop_at timers_outlive_widget).
Local Abbreviation run_cycle := (run_cycle stop_at timers_outlive_widget).

Lemma the_page_update f a :
  is_Some (pages a !! self) →
  the_page self (update_page self f a) = f (the_page self a).
Proof.
  intros [p Hp]. unfold the_page, update_page, with_pages. cbn [pages].
  by rewrite list_lookup_alter_eq, Hp.
Qed.

Lemma running_valid a : running (the_page self a) = true → is_Some (pages a !! self).
Proof. unfold the_page. by destruct (pages a !! self). Qed.

Lemma same_setup_refl a : same_setup self a a.
Proof. by repeat split. Qed.

Lemma same_setup_trans a b c :
  same_setup self a b → same_setup self b c → same_setup self a c.
Proof.
  intros (?&?&?&?&?&?) (?&?&?&?&?&?). repeat split; congruence.
Qed.

Lemma same_setup_page {T} a a' (f : RunPage → T) :
  same_setup self a a' →
  (∀ p, f (set_sample_name 0 p) = f p) →
  f (the_page self a') = f (the_page self a).
Proof. intros [H _] Hf. by rewrite <-Hf, H, Hf. Qed.

Lemma same_setup_bump a n :
  is_Some (pages a !! self) →
  same_setup self a (update_page self (λ p, set_sample_name (n p) p) a).
Proof.
  intros Hp. split; [by rewrite the_page_update|].
  repeat split. unfold update_page, with_pages. cbn [pages].
  apply length_alter.
Qed.

Lemma sleep_quiet ms a :
  destroyed (the_page self a) = false →
  sleep self ms a = (Returned (), elapse ms (emit (EvSleep ms) a)).
Proof.
  intros Hd. unfold sleep. rewrite quiet.
  change (the_page self (elapse ms (emit (EvSleep ms) a))) with (the_page self a).
  by rewrite Hd.
Qed.

Lemma bind_returned {A B} (m : Run A) (k : A → Run B) a x a' :
  m a = (Returned x, a') → (m ≫= k) a = k x a'.
Proof. intros H. unfold mbind, run_bind. by rewrite H. Qed.

Lemma py_getitem_in_range {A} (l : list A) (i : Z) :
  0 ≤ i < Z.of_nat (length l) → ∃ x, py_getitem l i = Ok x.
Proof.
  intros Hi. unfold py_getitem, py_index.
  destruct (Z.leb_spec 0 i); [|lia].
  destruct (Z.ltb_spec i (Z.of_nat (length l))); [|lia].
  cbn [andb]. rewrite py_bind_ok.
  destruct (lookup_lt_is_Some_2 l (Z.to_nat i)) as [x Hx]; [lia|].
  exists x. by rewrite Hx.
Qed.

Lemma steady_same_setup a a' : steady self a → same_setup self a a' → steady self a'.
Proof.
  intros (Hr & Hd & table & Ht & Hlen) Hs. split; [|split].
  - by rewrite (same_setup_page a a' running Hs).
  - by rewrite (same_setup_page a a' destroyed Hs).
  - exists table. destruct Hs as (_ & -> & _). done.
Qed.

Lemma visit_log i a : log (visit self i a) = log a ++ visit_events i.
Proof. unfold visit. cbn. by rewrite <-!app_assoc. Qed.

Lemma visit_same_setup i a :
  is_Some (pages a !! self) → same_setup self a (visit self i a).
Proof.
  intros Hp.
  apply (same_setup_bump (emit EvGoing (elapse 1000 (emit (EvSleep 1000)
           (elapse 500 (emit (EvSleep 500) (emit (EvLookup i) a))))))
           (λ p, sample_name p + 1) Hp).
Qed.

Lemma photo_step_quiet i a :
  steady self a → 0 ≤ i < 12 →
  photo_step self i a = (Returned (), visit self i a).
Proof.
  intros (Hr & Hd & table & Ht & Hlen) Hi. unfold photo_step.
  erewrite bind_returned by reflexivity. rewrite Hr.
  erewrite bind_returned by (erewrite bind_returned by reflexivity;
                              unfold lift; rewrite Ht; reflexivity).
  erewrite bind_returned by reflexivity.
  destruct (py_getitem_in_range table i) as [e He]; [lia|].
  erewrite bind_returned by (unfold lift; rewrite He; reflexivity).
  erewrite bind_returned by (by apply sleep_quiet).
  erewrite bind_returned by (by apply sleep_quiet).
  erewrite bind_returned by reflexivity.
  erewrite bind_returned by reflexivity.
  rewrite sleep_quiet; [done|].
  rewrite the_page_update by (by apply running_valid). done.
Qed.

(** A sweep that nothing disturbs visits its indices in order. *)
Lemma for_each_quiet indices a :
  steady self a → Forall (λ i, 0 ≤ i < 12) indices →
  ∃ a', for_each indices (photo_step self) a = (Returned (), a') ∧
        log a' = log a ++ (indices ≫= visit_events) ∧
        same_setup self a a'.
Proof.
  intros Hst Hin. revert a Hst.
  induction Hin as [|i indices Hi _ IH]; intros a Hst.
  - exists a. cbn. rewrite app_nil_r. split; [done|]. split; [done|].
    apply same_setup_refl.
  - assert (same_setup self a (visit self i a)) as Hvis.
    { apply visit_same_setup, running_valid, Hst. }
    destruct (IH (visit self i a)) as (a' & Hrun & Hlog & Hsame).
    { by eapply steady_same_setup. }
    exists a'. split; [|split].
    + cbn [for_each]. erewrite bind_returned by (by apply photo_step_quiet).
      done.
    + rewrite Hlog, visit_log, <-app_assoc. done.
    + by eapply same_setup_trans.
Qed.

Lemma py_range_in_grid start stop :
  0 ≤ start → stop ≤ 12 → Forall (λ i, 0 ≤ i < 12) (py_range start stop).
Proof.
  intros Hs He. apply Forall_forall. intros i Hi%elem_of_seqZ. lia.
Qed.

Lemma goto_and_photo_row_quiet start stop a :
  steady self a → 0 ≤ start → stop ≤ 12 →
  ∃ a', goto_and_photo_row self start stop a = (Returned (), a') ∧
        log a' = log a ++ (py_range start stop ≫= visit_events) ∧
        same_setup self a a'.
Proof.
  intros Hst Hs He. apply for_each_quiet; [done|by apply py_range_in_grid].
Qed.

(** A whole cycle that nothing disturbs. *)
Lemma run_cycle_quiet a start duration interval1 interval2 :
  steady self a →
  start_time (the_page self a) = Some start →
  phases_entered (the_page self a) duration interval1 interval2 →
  let sample_size := selected_sample_size a in
  let skip := skip_row a in
  let cols := sample_size `div` 2 in
  0 ≤ skip → cols + skip ≤ 12 → 0 ≤ 12 - skip - cols → 12 - skip ≤ 12 →
  ∃ a' time_now,
    run_cycle self a = (Returned (), a') ∧
    log a' = log a ++ [EvSleep 0]
               ++ (py_range skip (cols + skip) ≫= visit_events)
               ++ (py_range (12 - skip - cols) (12 - skip) ≫= visit_events)
               ++ [EvNow time_now;
                   EvSleep (cycle_wait
                              (if time_now - start <? timedelta_hours duration
                               then interval1 else interval2)
                              sample_size * 1000);
                   EvAfter 1000] ∧
    set_sample_name 0 (the_page self a') = set_sample_name 0 (cycle_page (the_page self a)).
Proof using quiet.
  intros Hst Hstart (Hpd & Hp1 & Hp2) sample_size skip cols H1 H2 H3 H4.
  pose proof Hst as (Hr & Hd & Htable).
  pose proof (running_valid a Hr) as Hvalid.
  unfold run_cycle.
  erewrite bind_returned by reflexivity. rewrite Hr.
  erewrite bind_returned by reflexivity.
  erewrite bind_returned by reflexivity.
  erewrite bind_returned by reflexivity.
  erewrite bind_returned by reflexivity.
  erewrite bind_returned by reflexivity.
  set (a1 := update_page self _ (update_page self _ (update_page self _ a))).
  assert (the_page self a1 = cycle_page (the_page self a)) as Hpage1.
  { unfold a1. rewrite !the_page_update; [done|done| |].
    - unfold update_page, with_pages. cbn [pages].
      rewrite list_lookup_alter_eq. by destruct Hvalid as [p ->].
    - unfold update_page, with_pages. cbn [pages].
      rewrite !list_lookup_alter_eq. by destruct Hvalid as [p ->]. }
  assert (steady self a1) as Hst1.
  { split; [|split]; [by rewrite Hpage1|by rewrite Hpage1|exact Htable]. }
  erewrite bind_returned by (apply sleep_quiet; by rewrite Hpage1).
  set (a2 := elapse 0 (emit (EvSleep 0) a1)).
  assert (steady self a2) as Hst2 by exact Hst1.
  fold sample_size skip cols.
  change (selected_sample_size a) with sample_size.
  destruct (goto_and_photo_row_quiet skip (cols + skip) a2 Hst2 H1 H2)
    as (a3 & Hrun3 & Hlog3 & Hsame3).
  pose proof (steady_same_setup a2 a3 Hst2 Hsame3) as Hst3.
  destruct (goto_and_photo_row_quiet (12 - skip - cols) (12 - skip) a3 Hst3 H3 H4)
    as (a4 & Hrun4 & Hlog4 & Hsame4).
  pose proof (same_setup_trans _ _ _ Hsame3 Hsame4) as Hsame.
  pose proof (steady_same_setup a2 a4 Hst2 Hsame) as Hst4.
  assert (∀ {T} (f : RunPage → T), (∀ p, f (set_sample_name 0 p) = f p) →
            f (the_page self a4) = f (cycle_page (the_page self a))) as Hfield.
  { intros T f Hf. rewrite (same_setup_page a2 a4 f Hsame Hf).
    change (the_page self a2) with (the_page self a1). by rewrite Hpage1. }
  erewrite bind_returned by exact Hrun3.
  erewrite bind_returned by exact Hrun4.
  erewrite bind_returned by reflexivity.
  erewrite bind_returned by reflexivity.
  set (a5 := emit (EvNow (clock a4)) a4).
  change (the_page self a5) with (the_page self a4).
  erewrite bind_returned.
  2:{ erewrite bind_returned by reflexivity. unfold lift.
      change (the_page self a5) with (the_page self a4).
      rewrite (Hfield _ start_time (λ p, eq_refl)). cbn [start_time cycle_page
        set_info_label set_count set_sample_name]. rewrite Hstart. reflexivity. }
  erewrite bind_returned.
  2:{ erewrite bind_returned by reflexivity. unfold lift.
      change (the_page self a5) with (the_page self a4).
      rewrite (Hfield _ phase_duration (λ p, eq_refl)). cbn [phase_duration cycle_page
        set_info_label set_count set_sample_name]. rewrite Hpd. reflexivity. }
  set (interval := if clock a4 - start <? timedelta_hours duration
                   then interval1 else interval2).
  set (ms := cycle_wait interval sample_size * 1000).
  erewrite bind_returned with (x := ()) (a' := elapse ms (emit (EvSleep ms) a5)).
  2:{ unfold ms, interval.
      destruct (clock a4 - start <? timedelta_hours duration).
      - erewrite bind_returned.
        2:{ erewrite bind_returned by reflexivity. unfold lift.
            change (the_page self a5) with (the_page self a4).
            rewrite (Hfield _ phase1_interval (λ p, eq_refl)).
            cbn [phase1_interval cycle_page set_info_label set_count set_sample_name].
            rewrite Hp1. reflexivity. }
        apply sleep_quiet. apply Hst4.
      - erewrite bind_returned.
        2:{ erewrite bind_returned by reflexivity. unfold lift.
            change (the_page self a5) with (the_page self a4).
            rewrite (Hfield _ phase2_interval (λ p, eq_refl)).
            cbn [phase2_interval cycle_page set_info_label set_count set_sample_name].
            rewrite Hp2. reflexivity. }
        apply sleep_quiet. apply Hst4. }
  exists (emit (EvAfter 1000) (elapse ms (emit (EvSleep ms) a5))), (clock a4).
  split; [done|]. split.
  - cbn [log emit elapse a5]. rewrite Hlog4, Hlog3. cbn [log a2 emit elapse].
    unfold a1 at 1. cbn [log update_page with_pages].
    rewrite <-!app_assoc. done.
  - change (the_page self (emit (EvAfter 1000) (elapse ms (emit (EvSleep ms) a5))))
      with (the_page self a4).
    destruct Hsame as (Hpage4 & _).
    change (the_page self a2) with (the_page self a1) in Hpage4.
    by rewrite Hpage4, Hpage1.
Qed.

Lemma visited_app l1 l2 : visited (l1 ++ l2) = visited l1 ++ visited l2.
Proof. apply omap_app. Qed.

Lemma visited_visits indices : visited (indices ≫= visit_events) = indices.
Proof.
  induction indices as [|i indices IH]; [done|].
  cbn. f_equal. exact IH.
Qed.

Lemma visited_cycle r1 r2 time_now wait ms :
  visited ([EvSleep 0] ++ (r1 ≫= visit_events) ++ (r2 ≫= visit_events)
             ++ [EvNow time_now; EvSleep wait; EvAfter ms]) = r1 ++ r2.
Proof.
  rewrite !visited_app, !visited_visits.
  change (visited [EvSleep 0]) with (@nil Z).
  change (visited [EvNow time_now; EvSleep wait; EvAfter ms]) with (@nil Z).
  by rewrite app_nil_r.
Qed.

Lemma valid_config_cols sample_size skip :
  valid_config sample_size skip →
  2 ≤ sample_size `div` 2 ≤ 6 ∧ sample_size = 2 * (sample_size `div` 2) ∧ 0 ≤ skip ≤ 1.
Proof.
  intros [Hs%list_elem_of_In Hk%list_elem_of_In]. cbn in Hs, Hk.
  destruct Hs as [<-|[<-|[<-|[<-|[<-|[]]]]]]; (split; [done|split; [done|lia]]).
Qed.

Lemma running_state_steady a :
  RunningState self a → twelve_slots a → steady self a.
Proof. intros (_ & Hr & _ & Hd & _) Ht. by repeat split. Qed.

(** The log of a cycle that nothing disturbs, for a choice of the main page. *)
Lemma run_cycle_valid a duration interval1 interval2 :
  RunningState self a → twelve_slots a →
  valid_config (selected_sample_size a) (skip_row a) →
  phases_entered (the_page self a) duration interval1 interval2 →
  let sample_size := selected_sample_size a in
  let skip := skip_row a in
  let cols := sample_size `div` 2 in
  ∃ a' time_now start,
    start_time (the_page self a) = Some start ∧
    run_cycle self a = (Returned (), a') ∧
    log a' = log a ++ [EvSleep 0]
               ++ (py_range skip (cols + skip) ≫= visit_events)
               ++ (py_range (12 - skip - cols) (12 - skip) ≫= visit_events)
               ++ [EvNow time_now;
                   EvSleep (cycle_wait
                              (if time_now - start <? timedelta_hours duration
                               then interval1 else interval2)
                              sample_size * 1000);
                   EvAfter 1000].
Proof.
  intros Hrun Hslots Hcfg Hphases sample_size skip cols.
  destruct (valid_config_cols _ _ Hcfg) as (Hcols & _ & Hskip).
  pose proof Hrun as (_ & _ & _ & _ & [start Hstart]).
  destruct (run_cycle_quiet a start duration interval1 interval2)
    as (a' & time_now & Hret & Hlog & _);
    [by apply running_state_steady|done|done|fold cols; lia..|].
  by exists a', time_now, start.
Qed.

(** C4 (amended): in a cycle that Stop does not interrupt, for each of the
    sample sizes 4, 6, 8, 10, 12 and skip_row 0 or 1, with
    [cols = sample_size // 2], the first sweep looks up exactly the indices
    [skip_row .. cols+skip_row-1] in ascending order and the second sweep
    exactly [12-skip_row-cols .. 12-skip_row-1]; for sample size 8 without
    skipping these are 0..3 and 8..11 (eight distinct indices, 4..7 not
    visited), for sample size 4 with skipping 1..2 and 9..10. *)
Theorem sweeps_of_cycle (a : App) (duration interval1 interval2 : Z) :
  RunningState self a → twelve_slots a →
  valid_config (selected_sample_size a) (skip_row a) →
  phases_entered (the_page self a) duration interval1 interval2 →
  let sample_size := selected_sample_size a in
  let skip := skip_row a in
  let cols := sample_size `div` 2 in
  ∃ a' first second rest,
    run_cycle self a = (Returned (), a') ∧
    log a' = log a ++ [EvSleep 0] ++ (first ≫= visit_events)
                   ++ (second ≫= visit_events) ++ rest ∧
    visited rest = [] ∧
    first = seqZ skip cols ∧
    second = seqZ (12 - skip - cols) cols ∧
    (sample_size = 8 → skip = 0 →
       first = [0; 1; 2; 3] ∧ second = [8; 9; 10; 11] ∧
       NoDup (first ++ second) ∧ Forall (λ i, i ∉ first ++ second) [4; 5; 6; 7]) ∧
    (sample_size = 4 → skip = 1 → first = [1; 2] ∧ second = [9; 10]).
Proof.
  intros Hrun Hslots Hcfg Hphases sample_size skip cols.
  destruct (run_cycle_valid a _ _ _ Hrun Hslots Hcfg Hphases)
    as (a' & time_now & start & _ & Hret & Hlog).
  fold sample_size skip cols in Hlog.
  eexists a', _, _, _. split; [exact Hret|]. split; [exact Hlog|].
  split; [done|]. unfold py_range.
  split; [f_equal; lia|]. split; [f_equal; lia|].
  split.
  - intros H8 H0. unfold cols. rewrite H8, H0.
    split; [done|]. split; [done|].
    split.
    2:{ apply Forall_forall. intros i Hi%list_elem_of_In Hin%list_elem_of_In.
        vm_compute in Hi, Hin. intuition congruence. }
    apply (NoDup_fmap_2 Z.of_nat (seq 0 4 ++ seq 8 4)), NoDup_app.
    split; [apply NoDup_seq|]. split; [|apply NoDup_seq].
    intros x Hx1%elem_of_seq Hx2%elem_of_seq. lia.
  - intros H4 H1. unfold cols. by rewrite H4, H1.
Qed.

(** C9: for each choice of the main page the two ranges that [run_cycle]
    passes to [goto_and_photo_row] satisfy 0 <= start <= end <= 12, so the
    indices a sweep goes through all lie in 0..11; a cycle that Stop does
    not interrupt looks up exactly these indices and no lookup raises. *)
Theorem sweep_ranges_in_grid (a : App) (duration interval1 interval2 : Z) :
  RunningState self a → twelve_slots a →
  valid_config (selected_sample_size a) (skip_row a) →
  phases_entered (the_page self a) duration interval1 interval2 →
  let skip := skip_row a in
  let cols := selected_sample_size a `div` 2 in
  (0 ≤ skip ≤ cols + skip ∧ cols + skip ≤ 12) ∧
  (0 ≤ 12 - skip - cols ≤ 12 - skip ∧ 12 - skip ≤ 12) ∧
  Forall (λ i, 0 ≤ i < 12) (py_range skip (cols + skip)) ∧
  Forall (λ i, 0 ≤ i < 12) (py_range (12 - skip - cols) (12 - skip)) ∧
  ∃ a' steps,
    run_cycle self a = (Returned (), a') ∧
    log a' = log a ++ steps ∧
    visited steps = py_range skip (cols + skip)
                      ++ py_range (12 - skip - cols) (12 - skip) ∧
    Forall (λ i, 0 ≤ i < 12) (visited steps).
Proof.
  intros Hrun Hslots Hcfg Hphases skip cols.
  destruct (valid_config_cols _ _ Hcfg) as (Hcols & _ & Hskip).
  fold cols in Hcols. fold skip in Hskip.
  split; [lia|]. split; [lia|].
  split; [apply py_range_in_grid; lia|]. split; [apply py_range_in_grid; lia|].
  destruct (run_cycle_valid a _ _ _ Hrun Hslots Hcfg Hphases)
    as (a' & time_now & start & _ & Hret & Hlog).
  eexists a', _. split; [exact Hret|]. split; [exact Hlog|].
  rewrite visited_cycle. split; [done|].
  apply Forall_app. split; apply py_range_in_grid; lia.
Qed.

(** C10: with sample size 12 and the first row skipped, a cycle that Stop
    does not interrupt looks up 1..6 and then 5..10: the indices 5 and 6 are
    visited twice, 0 and 11 never, so the twelve visits cover ten slots. *)
Theorem sweeps_overlap_when_skipping_12 (a : App)
    (duration interval1 interval2 : Z) :
  RunningState self a → twelve_slots a →
  selected_sample_size a = 12 → skip_row a = 1 →
  phases_entered (the_page self a) duration interval1 interval2 →
  ∃ a' steps,
    run_cycle self a = (Returned (), a') ∧
    log a' = log a ++ steps ∧
    visited steps = [1; 2; 3; 4; 5; 6] ++ [5; 6; 7; 8; 9; 10] ∧
    length (filter (λ i, i = 5) (visited steps)) = 2%nat ∧
    length (filter (λ i, i = 6) (visited steps)) = 2%nat ∧
    (0 ∉ visited steps) ∧ (11 ∉ visited steps) ∧
    length (visited steps) = 12%nat ∧
    length (remove_dups (visited steps)) = 10%nat.
Proof.
  intros Hrun Hslots Hsize Hskip Hphases.
  assert (valid_config (selected_sample_size a) (skip_row a)) as Hcfg.
  { rewrite Hsize, Hskip. split; apply list_elem_of_In; cbn; tauto. }
  destruct (run_cycle_valid a _ _ _ Hrun Hslots Hcfg Hphases)
    as (a' & time_now & start & _ & Hret & Hlog).
  rewrite Hsize, Hskip in Hlog.
  eexists a', _. split; [exact Hret|]. split; [exact Hlog|].
  rewrite visited_cycle.
  change (py_range 1 (12 `div` 2 + 1)) with [1; 2; 3; 4; 5; 6].
  change (py_range (12 - 1 - 12 `div` 2) (12 - 1)) with [5; 6; 7; 8; 9; 10].
  split; [done|]. split; [done|]. split; [done|].
  split; [intros Hin%list_elem_of_In; cbn in Hin; intuition congruence|].
  split; [intros Hin%list_elem_of_In; cbn in Hin; intuition congruence|].
  split; [done|]. by vm_compute.
Qed.

(** C5: the [sleep] that ends a cycle lasts
    [max(interval - sample_size * 25, 0)] seconds, where [interval] is
    [phase1_interval * 60] if the time since [start_time], read after the
    sweeps, is strictly less than [phase_duration] hours, and
    [phase2_interval * 60] otherwise; with a fast-phase interval of 5 minutes
    and 12 samples the wait in the fast phase is 0. The clock counts
    microseconds, [sleep] milliseconds. *)
Theorem inter_cycle_wait (a : App)
    (phase_duration_hours phase1_interval_minutes phase2_interval_minutes : Z) :
  RunningState self a → twelve_slots a →
  valid_config (selected_sample_size a) (skip_row a) →
  phases_entered (the_page self a)
    phase_duration_hours phase1_interval_minutes phase2_interval_minutes →
  ∃ a' before time_now start,
    start_time (the_page self a) = Some start ∧
    run_cycle self a = (Returned (), a') ∧
    let sample_size := selected_sample_size a in
    let elapsed := time_now - start in
    let interval :=
      if elapsed <? phase_duration_hours * 3600 * 1000000
      then phase1_interval_minutes * 60 else phase2_interval_minutes * 60 in
    let wait := Z.max (interval - sample_size * 25) 0 in
    log a' = before ++ [EvNow time_now; EvSleep (wait * 1000); EvAfter 1000] ∧
    (phase1_interval_minutes = 5 → sample_size = 12 →
     elapsed < phase_duration_hours * 3600 * 1000000 → wait = 0).
Proof.
  intros Hrun Hslots Hcfg Hphases.
  destruct (run_cycle_valid a _ _ _ Hrun Hslots Hcfg Hphases)
    as (a' & time_now & start & Hstart & Hret & Hlog).
  eexists a', _, time_now, start. split; [exact Hstart|]. split; [exact Hret|].
  cbn zeta. split.
  - rewrite Hlog, !app_assoc. f_equal. unfold cycle_wait, timedelta_hours.
    by destruct (_ <? _).
  - intros H5 H12 Hfast. apply Z.ltb_lt in Hfast. rewrite Hfast, H5, H12. done.
Qed.

End QuietRun.

Section QuietRunExamples.

Lemma never_undisturbed : undisturbed never.
Proof. intros k. reflexivity. Qed.

Lemma run_program_started stop_at timers_outlive_widget self a :
  run_program stop_at timers_outlive_widget self a
  = run_cycle stop_at timers_outlive_widget self (started self a).
Proof. reflexivity. Qed.

(** Start pressed on the idle page in [frames] leads to the running state. *)
Lemma started_running self a :
  frames_RunPage a = Some self →
  is_Some (pages a !! self) →
  destroyed (the_page self a) = false →
  RunningState self (started self a).
Proof.
  intros Hf [p Hp] Hd. unfold started.
  assert (the_page self a = p) as Hpage by (unfold the_page; by rewrite Hp).
  split; [done|].
  rewrite !the_page_update.
  - rewrite Hpage in Hd. rewrite Hpage. by repeat split.
  - by eexists.
  - unfold update_page, with_pages. cbn [pages].
    rewrite list_lookup_alter_eq, Hp. by eexists.
  - unfold update_page, with_pages. cbn [pages].
    rewrite !list_lookup_alter_eq, Hp. by eexists.
Qed.

Lemma App_running_state sample_size skip table :
  RunningState 0 (App_running sample_size skip table).
Proof. apply started_running; [done|by eexists|done]. Qed.

Lemma App_running_slots sample_size skip :
  twelve_slots (App_running sample_size skip preset_locations).
Proof. by exists preset_locations. Qed.

Lemma App_running_phases sample_size skip table :
  phases_entered (the_page 0 (App_running sample_size skip table)) 30 5 30.
Proof. by repeat split. Qed.

Lemma config_8_0 : valid_config 8 0.
Proof. split; apply list_elem_of_In; cbn; tauto. Qed.

Lemma config_12_1 : valid_config 12 1.
Proof. split; apply list_elem_of_In; cbn; tauto. Qed.

Lemma sweeps_of_cycle_witness :
  let a := App_running 8 0 preset_locations in
  let sample_size := selected_sample_size a in
  let skip := skip_row a in
  let cols := sample_size `div` 2 in
  ∃ a' first second rest,
    run_cycle never false 0 a = (Returned (), a') ∧
    log a' = log a ++ [EvSleep 0] ++ (first ≫= visit_events)
                   ++ (second ≫= visit_events) ++ rest ∧
    visited rest = [] ∧
    first = seqZ skip cols ∧
    second = seqZ (12 - skip - cols) cols ∧
    (sample_size = 8 → skip = 0 →
       first = [0; 1; 2; 3] ∧ second = [8; 9; 10; 11] ∧
       NoDup (first ++ second) ∧ Forall (λ i, i ∉ first ++ second) [4; 5; 6; 7]) ∧
    (sample_size = 4 → skip = 1 → first = [1; 2] ∧ second = [9; 10]).
Proof.
  exact (sweeps_of_cycle never false 0 never_undisturbed
           (App_running 8 0 preset_locations) 30 5 30
           (App_running_state 8 0 preset_locations)
           (App_running_slots 8 0) config_8_0
           (App_running_phases 8 0 preset_locations)).
Defined.

(** C4 as stated fails: with sample size 8 and no skipping the second sweep
    visits 8..11, not 4..7, and with sample size 4 and skipping it visits
    9..10, not 7..8. *)
Lemma second_sweep_counts_from_the_end :
  visited (log (run_cycle never false 0 (App_running 8 0 preset_locations)).2)
    = [0; 1; 2; 3; 8; 9; 10; 11] ∧
  visited (log (run_cycle never false 0 (App_running 8 0 preset_locations)).2)
    ≠ [0; 1; 2; 3; 4; 5; 6; 7] ∧
  visited (log (run_cycle never false 0 (App_running 4 1 preset_locations)).2)
    = [1; 2; 9; 10] ∧
  visited (log (run_cycle never false 0 (App_running 4 1 preset_locations)).2)
    ≠ [1; 2; 7; 8].
Proof. vm_compute. repeat split; discriminate. Qed.

Lemma sweep_ranges_in_grid_witness :
  let a := App_running 12 1 preset_locations in
  let skip := skip_row a in
  let cols := selected_sample_size a `div` 2 in
  (0 ≤ skip ≤ cols + skip ∧ cols + skip ≤ 12) ∧
  (0 ≤ 12 - skip - cols ≤ 12 - skip ∧ 12 - skip ≤ 12) ∧
  Forall (λ i, 0 ≤ i < 12) (py_range skip (cols + skip)) ∧
  Forall (λ i, 0 ≤ i < 12) (py_range (12 - skip - cols) (12 - skip)) ∧
  ∃ a' steps,
    run_cycle never false 0 a = (Returned (), a') ∧
    log a' = log a ++ steps ∧
    visited steps = py_range skip (cols + skip)
                      ++ py_range (12 - skip - cols) (12 - skip) ∧
    Forall (λ i, 0 ≤ i < 12) (visited steps).
Proof.
  exact (sweep_ranges_in_grid never false 0 never_undisturbed
           (App_running 12 1 preset_locations) 30 5 30
           (App_running_state 12 1 preset_locations)
           (App_running_slots 12 1) config_12_1
           (App_running_phases 12 1 preset_locations)).
Defined.

Lemma sweeps_overlap_when_skipping_12_witness :
  let a := App_running 12 1 preset_locations in
  ∃ a' steps,
    run_cycle never false 0 a = (Returned (), a') ∧
    log a' = log a ++ steps ∧
    visited steps = [1; 2; 3; 4; 5; 6] ++ [5; 6; 7; 8; 9; 10] ∧
    length (filter (λ i, i = 5) (visited steps)) = 2%nat ∧
    length (filter (λ i, i = 6) (visited steps)) = 2%nat ∧
    (0 ∉ visited steps) ∧ (11 ∉ visited steps) ∧
    length (visited steps) = 12%nat ∧
    length (remove_dups (visited steps)) = 10%nat.
Proof.
  exact (sweeps_overlap_when_skipping_12 never false 0 never_undisturbed
           (App_running 12 1 preset_locations) 30 5 30
           (App_running_state 12 1 preset_locations)
           (App_running_slots 12 1) eq_refl eq_refl
           (App_running_phases 12 1 preset_locations)).
Defined.

Lemma inter_cycle_wait_witness :
  let a := App_running 12 1 preset_locations in
  ∃ a' before time_now start,
    start_time (the_page 0 a) = Some start ∧
    run_cycle never false 0 a = (Returned (), a') ∧
    let sample_size := selected_sample_size a in
    let elapsed := time_now - start in
    let interval :=
      if elapsed <? 30 * 3600 * 1000000 then 5 * 60 else 30 * 60 in
    let wait := Z.max (interval - sample_size * 25) 0 in
    log a' = before ++ [EvNow time_now; EvSleep (wait * 1000); EvAfter 1000] ∧
    (5 = 5 → sample_size = 12 → elapsed < 30 * 3600 * 1000000 → wait = 0).
Proof.
  exact (inter_cycle_wait never false 0 never_undisturbed
           (App_running 12 1 preset_locations) 30 5 30
           (App_running_state 12 1 preset_locations)
           (App_running_slots 12 1) config_12_1
           (App_running_phases 12 1 preset_locations)).
Defined.

End QuietRunExamples.

(** ** The run page: Stop *)

Section Triples.

Context {A B : Type} (P H : App → Prop).

Lemma triple_ret (x : A) : triple P H (mret x).
Proof. intros a Ha. exact Ha. Qed.

Lemma triple_bind (m : Run A) (k : A → Run B) :
  triple P H m → (∀ x, triple P H (k x)) → triple P H (m ≫= k).
Proof.
  intros Hm Hk a Ha. specialize (Hm a Ha).
  unfold mbind, run_bind. destruct (m a) as [[x|e|] a']; cbn in *; [|done|done].
  by apply Hk.
Qed.

Lemma triple_modify (f : App → App) :
  (∀ a, P a → P (f a)) → triple P H (modify f).
Proof. intros Hf a Ha. by apply Hf. Qed.

Lemma triple_read (f : App → A) : triple P H (read f).
Proof. intros a Ha. exact Ha. Qed.

Lemma triple_lift (r : py_result A) : triple P H (lift r).
Proof. intros a Ha. by destruct r. Qed.

End Triples.

Lemma triple_for_each (P H : App → Prop) (l : list Z) (body : Z → Run unit) :
  (∀ i, triple P H (body i)) → triple P H (for_each l body).
Proof.
  intros Hbody. induction l as [|i l IH]; [apply triple_ret|].
  cbn [for_each]. apply triple_bind; [apply Hbody|]. intros _. apply IH.
Qed.

Section AnySchedule.

Variable stop_at : nat → bool.
Variable timers_outlive_widget : bool.
Variable self : nat.

Local Abbreviation sleep := (sleep stop_at timers_outlive_widget).
Local Abbreviation photo_step := (photo_step stop_at timers_outlive_widget).
Local Abbreviation goto_and_photo_row := (goto_and_photo_row stop_at timers_outlive_widget).
Local Abbreviation run_cycle := (run_cycle stop_at timers_outlive_widget).
Local Abbreviation cycle_rest := (cycle_rest stop_at timers_outlive_widget).

(** The program of a cycle keeps [P] (or ends in [H]) as soon as its
    primitive steps do. *)
Lemma triple_photo_step (P H : App → Prop) i :
  (∀ e a, e ≠ EvStop → P a → P (emit e a)) →
  (∀ n a, P a → P (update_page self (λ p, set_sample_name (n p) p) a)) →
  (∀ ms, triple P H (sleep self ms)) →
  triple P H (photo_step self i).
Proof.
  intros Hemit Hbump Hsleep. unfold photo_step.
  apply triple_bind; [apply triple_read|]. intros [|]; [|apply triple_ret].
  apply triple_bind.
  { apply triple_bind; [apply triple_read|]. intros r. apply triple_lift. }
  intros table. apply triple_bind; [apply triple_modify; intros a; by apply Hemit|]. intros _.
  apply triple_bind; [apply triple_lift|]. intros _.
  apply triple_bind; [apply Hsleep|]. intros _.
  apply triple_bind; [apply Hsleep|]. intros _.
  apply triple_bind; [apply triple_modify; intros a; by apply Hemit|]. intros _.
  apply triple_bind; [|intros _; apply Hsleep].
  apply triple_modify. intros a. apply (Hbump (λ p, sample_name p + 1)).
Qed.

Lemma triple_goto_and_photo_row (P H : App → Prop) start stop :
  (∀ e a, e ≠ EvStop → P a → P (emit e a)) →
  (∀ n a, P a → P (update_page self (λ p, set_sample_name (n p) p) a)) →
  (∀ ms, triple P H (sleep self ms)) →
  triple P H (goto_and_photo_row self start stop).
Proof.
  intros Hemit Hbump Hsleep. apply triple_for_each. intros i.
  by apply triple_photo_step.
Qed.

Lemma run_cycle_unfold a :
  running (the_page self a) = true →
  run_cycle self a
  = cycle_rest self (selected_sample_size a) (skip_row a)
      (update_page self (λ p, set_count (count p + 1) p)
         (update_page self (set_sample_name 1) a)).
Proof.
  intros Hr. unfold run_cycle.
  erewrite bind_returned by reflexivity. rewrite Hr.
  erewrite bind_returned by reflexivity.
  erewrite bind_returned by reflexivity.
  erewrite bind_returned by reflexivity.
  erewrite bind_returned by reflexivity.
  reflexivity.
Qed.

Lemma triple_cycle_rest (P H : App → Prop) sample_size skip :
  (∀ e a, e ≠ EvStop → P a → P (emit e a)) →
  (∀ n a, P a → P (update_page self (λ p, set_sample_name (n p) p) a)) →
  (∀ i a, P a → P (update_page self (λ p, set_info_label (i p) p) a)) →
  (∀ ms, triple P H (sleep self ms)) →
  triple P H (cycle_rest self sample_size skip).
Proof.
  intros Hemit Hbump Hinfo Hsleep. unfold cycle_rest.
  apply triple_bind.
  { apply triple_modify. intros a. apply (Hinfo (λ p, InfoCycle (count p))). }
  intros _. apply triple_bind; [apply Hsleep|]. intros _.
  apply triple_bind; [by apply triple_goto_and_photo_row|]. intros _.
  apply triple_bind; [by apply triple_goto_and_photo_row|]. intros _.
  apply triple_bind; [apply triple_read|]. intros time_now.
  apply triple_bind; [apply triple_modify; intros a; by apply Hemit|]. intros _.
  apply triple_bind.
  { apply triple_bind; [apply triple_read|]. intros r. apply triple_lift. }
  intros start. apply triple_bind.
  { apply triple_bind; [apply triple_read|]. intros r. apply triple_lift. }
  intros duration. apply triple_bind.
  { destruct (_ <? _).
    - apply triple_bind; [|intros interval; apply Hsleep].
      apply triple_bind; [apply triple_read|]. intros r. apply triple_lift.
    - apply triple_bind; [|intros interval; apply Hsleep].
      apply triple_bind; [apply triple_read|]. intros r. apply triple_lift. }
  intros _. apply triple_modify. intros a. by apply Hemit.
Qed.

(** *** The counter *)

Lemma counted_update c j f a :
  (∀ p, count (f p) = count p) →
  counted self c a → counted self c (update_page j f a).
Proof.
  intros Hf [[p Hp] Hc]. unfold counted, the_page in *.
  unfold update_page, with_pages. cbn [pages].
  destruct (decide (j = self)) as [->|Hne].
  - rewrite list_lookup_alter_eq, Hp in *. cbn in *. split; [by eexists|].
    by rewrite Hf.
  - rewrite list_lookup_alter_ne, Hp in * by done. split; [by eexists|done].
Qed.

Lemma counted_create_runpage c a :
  counted self c a → counted self c (create_runpage a).
Proof.
  intros Hc. unfold create_runpage.
  set (a1 := match frames_RunPage a with Some _ => _ | None => _ end).
  assert (counted self c a1) as [[p Hp] Hc1].
  { unfold a1. destruct (frames_RunPage a); [|done].
    by apply counted_update. }
  unfold counted, the_page in *. cbn [pages with_frames_RunPage with_pages].
  rewrite lookup_app_l by (by eapply lookup_lt_Some).
  split; [by eexists|done].
Qed.

Lemma counted_stop_program c j a :
  counted self c a → counted self c (stop_program j a).
Proof.
  intros Hc. unfold stop_program.
  apply counted_create_runpage.
  apply counted_update; [done|]. by apply counted_update.
Qed.

Lemma counted_sleep c ms :
  triple (counted self c) (counted self c) (sleep self ms).
Proof.
  intros a Hc. unfold sleep.
  set (a1 := if stop_at _ then _ else _).
  assert (counted self c a1) as Hc1.
  { unfold a1. destruct (stop_at _); [|done]. unfold press_stop.
    destruct (frames_RunPage _); [|done].
    destruct (run_button _); [done|]. by apply counted_stop_program. }
  by destruct (destroyed (the_page self a1) && negb timers_outlive_widget).
Qed.

(** Whatever the schedule, and however the cycle ends, a cycle that has
    started has been counted. *)
Lemma run_cycle_counted a :
  running (the_page self a) = true →
  count (the_page self (run_cycle self a).2) = count (the_page self a) + 1.
Proof.
  intros Hr. rewrite run_cycle_unfold by done.
  pose proof (running_valid self a Hr) as Hvalid.
  set (a1 := update_page self _ (update_page self _ a)).
  assert (counted self (count (the_page self a) + 1) a1) as Hc1.
  { unfold a1. split.
    - unfold update_page, with_pages. cbn [pages].
      rewrite !list_lookup_alter_eq. by destruct Hvalid as [p ->].
    - rewrite !the_page_update; [done|done|].
      unfold update_page, with_pages. cbn [pages].
      rewrite list_lookup_alter_eq. by destruct Hvalid as [p ->]. }
  set (c := count (the_page self a) + 1) in *.
  assert (triple (counted self c) (counted self c)
            (cycle_rest self (selected_sample_size a) (skip_row a))) as Htriple.
  { apply triple_cycle_rest.
    - by intros e a0 _ Hc.
    - intros n a0. by apply counted_update.
    - intros i a0. by apply counted_update.
    - apply counted_sleep. }
  specialize (Htriple a1 Hc1).
  by destruct (cycle_rest self _ _ a1) as [[| |] a'], Htriple.
Qed.

(** *** Stop during a suspension *)

Hypothesis timers_die : timers_outlive_widget = false.

Lemma active_valid log0 a : active self log0 a → is_Some (pages a !! self).
Proof.
  intros (_ & Hb & _). unfold the_page in Hb.
  by destruct (pages a !! self).
Qed.

Lemma active_emit log0 e a :
  e ≠ EvStop → active self log0 a → active self log0 (emit e a).
Proof.
  intros He (Hf & Hb & Hd & steps & Hlog & Hsteps).
  split; [done|]. split; [done|]. split; [done|].
  exists (steps ++ [e]). cbn [log emit]. rewrite Hlog, app_assoc.
  split; [done|]. rewrite elem_of_app, list_elem_of_singleton.
  intros [Hin|Heq]; [by apply Hsteps|congruence].
Qed.

Lemma active_update log0 f a :
  (∀ p, run_button (f p) = run_button p) →
  (∀ p, destroyed (f p) = destroyed p) →
  active self log0 a → active self log0 (update_page self f a).
Proof.
  intros Hfb Hfd Ha. pose proof (active_valid _ _ Ha) as Hvalid.
  destruct Ha as (Hf & Hb & Hd & Hsteps).
  split; [done|]. rewrite the_page_update by done.
  split; [by rewrite Hfb|]. split; [by rewrite Hfd|done].
Qed.

Lemma stop_program_page a :
  is_Some (pages a !! self) →
  the_page self (stop_program self a)
  = (if decide (frames_RunPage a = Some self) then destroy else id)
      (set_info_label InfoWait (set_controls StartCommand true (the_page self a))).
Proof.
  intros [p Hp]. unfold stop_program, create_runpage.
  cbn [frames_RunPage emit update_page with_pages].
  unfold the_page at 1.
  destruct (frames_RunPage a) as [frame|] eqn:Hframe.
  - cbn [pages with_frames_RunPage update_page with_pages].
    rewrite lookup_app_l.
    2:{ rewrite !length_alter. by eapply lookup_lt_Some. }
    destruct (decide (frame = self)) as [->|Hne].
    + rewrite decide_True by done. rewrite !list_lookup_alter_eq.
      unfold the_page. cbn [pages emit]. by rewrite Hp.
    + rewrite decide_False by congruence.
      rewrite list_lookup_alter_ne by done. rewrite !list_lookup_alter_eq.
      unfold the_page. cbn [pages emit]. by rewrite Hp.
  - rewrite decide_False by done.
    cbn [pages with_frames_RunPage update_page with_pages].
    rewrite lookup_app_l.
    2:{ rewrite !length_alter. by eapply lookup_lt_Some. }
    rewrite !list_lookup_alter_eq. unfold the_page. cbn [pages emit].
    by rewrite Hp.
Qed.

Lemma create_runpage_fresh a :
  frames_RunPage (create_runpage a) = Some (length (pages a)) ∧
  the_page (length (pages a)) (create_runpage a) = RunPage_new ∧
  log (create_runpage a) = log a.
Proof.
  unfold create_runpage.
  set (a1 := match frames_RunPage a with Some _ => _ | None => _ end).
  assert (length (pages a1) = length (pages a) ∧ log a1 = log a) as [Hlen Hlog].
  { unfold a1. destruct (frames_RunPage a); [|done].
    split; [apply length_alter|done]. }
  cbn [frames_RunPage with_frames_RunPage with_pages log].
  rewrite Hlen. split; [done|]. split; [|done].
  unfold the_page. cbn [pages with_frames_RunPage with_pages].
  rewrite lookup_app_r by lia. by rewrite Hlen, Nat.sub_diag.
Qed.

Lemma stop_program_fresh j a :
  frames_RunPage (stop_program j a) = Some (length (pages a)) ∧
  the_page (length (pages a)) (stop_program j a) = RunPage_new ∧
  log (stop_program j a) = log a ++ [EvStop].
Proof.
  unfold stop_program.
  set (a1 := update_page j _ (update_page j _ (emit EvStop a))).
  destruct (create_runpage_fresh a1) as (Hf & Hnew & Hlog).
  assert (length (pages a1) = length (pages a)) as Hlen.
  { unfold a1, update_page, with_pages. cbn [pages emit].
    by rewrite !length_alter. }
  rewrite Hlen in Hf, Hnew. by rewrite Hf, Hnew, Hlog.
Qed.

Lemma active_sleep log0 ms :
  triple (active self log0) (halted self log0) (sleep self ms).
Proof.
  intros a Ha. unfold sleep. rewrite timers_die, andb_true_r.
  set (a1 := elapse ms (emit (EvSleep ms) a)).
  assert (active self log0 a1) as Ha1 by (by apply (active_emit log0 (EvSleep ms) a)).
  destruct (stop_at (suspensions (emit (EvSleep ms) a))).
  - pose proof (active_valid _ _ Ha1) as Hvalid.
    destruct Ha1 as (Hf & Hb & Hd & steps & Hlog & Hsteps).
    unfold press_stop. rewrite Hf, Hb.
    rewrite stop_program_page, decide_True by done. cbn [destroyed destroy].
    cbn [fst snd].
    destruct (stop_program_fresh self a1) as (Hfresh & Hnew & Hlog').
    exists (drop (length log0) (log a)), ms, (length (pages a1)).
    destruct Ha as (_ & _ & _ & steps0 & Hlog0 & Hsteps0).
    rewrite Hlog0, drop_app_length.
    split.
    { rewrite Hlog'. unfold a1. cbn [log elapse emit].
      by rewrite Hlog0, <-!app_assoc. }
    split; [done|]. rewrite stop_program_page, decide_True by done.
    split; [done|]. split; [done|]. split; [|done].
    destruct Hvalid as [p Hp%lookup_lt_Some]. lia.
  - destruct Ha1 as (Hf & Hb & Hd & Hsteps). rewrite Hd. cbn [fst snd].
    by repeat split.
Qed.

Lemma run_cycle_stop a :
  RunningState self a →
  match (run_cycle self a).1 with
  | Suspended => halted self (log a) (run_cycle self a).2
  | _ => active self (log a) (run_cycle self a).2
  end.
Proof.
  intros (Hf & Hr & Hb & Hd & _). rewrite run_cycle_unfold by done.
  pose proof (running_valid self a Hr) as Hvalid.
  set (a1 := update_page self _ (update_page self _ a)).
  assert (active self (log a) a1) as Ha1.
  { unfold a1. apply active_update; [done|done|].
    apply active_update; [done|done|].
    split; [done|]. split; [done|]. split; [done|].
    exists []. rewrite app_nil_r. split; [done|]. apply not_elem_of_nil. }
  apply (triple_cycle_rest (active self (log a)) (halted self (log a))); [| | | |done].
  - intros e a0. apply active_emit.
  - intros n a0. by apply active_update.
  - intros i a0. by apply active_update.
  - apply active_sleep.
Qed.

End AnySchedule.

(** C1 (amended): the cycle counter is incremented when a cycle starts,
    before the first sweep, so however the cycle ends it has been counted on
    the page that ran it. When a destroyed page's timers are not called any
    more, pressing Stop during any suspension of the cycle, in particular in
    the middle of a sweep, ends it there: the call never resumes, the stop is
    the last step logged (no lookup, sleep or photo step follows), and the
    page put in [frames] is a new one with its counter at 0. If Stop is not
    pressed, no stop is logged. *)
Theorem stop_during_cycle (stop_at : nat → bool) (timers_outlive_widget : bool)
    (self : nat) (a : App) :
  RunningState self a →
  let r := run_cycle stop_at timers_outlive_widget self a in
  count (the_page self r.2) = count (the_page self a) + 1 ∧
  (timers_outlive_widget = false →
   ∃ steps, log r.2 = log a ++ steps ∧
     match r.1 with
     | Suspended =>
         ∃ before ms fresh,
           steps = before ++ [EvSleep ms; EvStop] ∧ (EvStop ∉ before) ∧
           destroyed (the_page self r.2) = true ∧
           frames_RunPage r.2 = Some fresh ∧ fresh ≠ self ∧
           the_page fresh r.2 = RunPage_new
     | _ => EvStop ∉ steps
     end).
Proof.
  intros Hrun. cbn zeta. split.
  - apply run_cycle_counted. apply Hrun.
  - intros Hdie.
    pose proof (run_cycle_stop stop_at timers_outlive_widget self Hdie a Hrun) as Hstop.
    destruct (run_cycle stop_at timers_outlive_widget self a) as [[x|e|] a'];
      cbn [fst snd] in *.
    + destruct Hstop as (_ & _ & _ & steps & Hlog & Hsteps). by exists steps.
    + destruct Hstop as (_ & _ & _ & steps & Hlog & Hsteps). by exists steps.
    + destruct Hstop as (before & ms & fresh & Hlog & Hbefore & Hd & Hf & Hne & Hnew).
      exists (before ++ [EvSleep ms; EvStop]). split; [done|].
      by exists before, ms, fresh.
Qed.

Lemma stop_during_cycle_witness :
  let a := App_running 4 0 preset_locations in
  let r := run_cycle (only_at 1) false 0 a in
  count (the_page 0 r.2) = count (the_page 0 a) + 1 ∧
  ∃ steps, log r.2 = log a ++ steps ∧
    match r.1 with
    | Suspended =>
        ∃ before ms fresh,
          steps = before ++ [EvSleep ms; EvStop] ∧ (EvStop ∉ before) ∧
          destroyed (the_page 0 r.2) = true ∧
          frames_RunPage r.2 = Some fresh ∧ fresh ≠ 0%nat ∧
          the_page fresh r.2 = RunPage_new
    | _ => EvStop ∉ steps
    end.
Proof.
  destruct (stop_during_cycle (only_at 1) false 0 (App_running 4 0 preset_locations)
              (App_running_state 4 0 preset_locations)) as [Hcount Hstop].
  split; [exact Hcount|exact (Hstop eq_refl)].
Defined.

(** C1 as stated fails: Stop pressed while the first sweep waits after its
    first lookup leaves the counter of the page at 1, although neither sweep
    was completed, and so does Stop pressed before the first sweep has looked
    up anything; this does not depend on what happens to the timers. *)
Lemma aborted_cycle_is_counted :
  let a := App_running 4 0 preset_locations in
  let r := run_cycle (only_at 1) false 0 a in
  let r' := run_cycle (only_at 1) true 0 a in
  let r0 := run_cycle (only_at 0) false 0 a in
  r.1 = Suspended ∧
  log r.2 = [EvSleep 0; EvLookup 0; EvSleep 500; EvStop] ∧
  count (the_page 0 a) = 0 ∧
  count (the_page 0 r.2) = 1 ∧
  count (the_page 0 r'.2) = 1 ∧
  r0.1 = Suspended ∧ visited (log r0.2) = [] ∧ count (the_page 0 r0.2) = 1.
Proof. vm_compute. repeat split. Qed.

(** C3 (amended): [stop_program], taken from the running state, does not
    touch the flag [running] of the page that was running, which stays set;
    it gives that page its Start button and enabled options back, destroys
    it, and puts a newly made [RunPage] in [frames], whose flag is unset and
    whose counters are 0: the page in [frames] is idle. *)
Theorem stop_program_replaces_page (self : nat) (a : App) :
  RunningState self a →
  let a' := stop_program self a in
  let fresh := length (pages a) in
  running (the_page self a') = true ∧
  destroyed (the_page self a') = true ∧
  options_enabled (the_page self a') = true ∧
  run_button (the_page self a') = StartCommand ∧
  count (the_page self a') = count (the_page self a) ∧
  fresh ≠ self ∧
  frames_RunPage a' = Some fresh ∧
  the_page fresh a' = RunPage_new ∧
  running (the_page fresh a') = false ∧
  count (the_page fresh a') = 0 ∧
  IdleState a'.
Proof.
  intros (Hf & Hr & Hb & Hd & _). cbn zeta.
  pose proof (running_valid self a Hr) as Hvalid.
  rewrite (stop_program_page self a Hvalid), decide_True by done.
  destruct (stop_program_fresh self a) as (Hfresh & Hnew & _).
  rewrite Hnew. cbn [running destroyed options_enabled run_button count destroy
                     set_info_label set_controls RunPage_new].
  repeat (split; [done|]). split.
  { destruct Hvalid as [p Hp%lookup_lt_Some]. lia. }
  repeat (split; [done|]).
  exists (length (pages a)). by rewrite Hnew.
Qed.

Lemma stop_program_replaces_page_witness :
  let a := App_running 4 0 preset_locations in
  let a' := stop_program 0 a in
  let fresh := length (pages a) in
  running (the_page 0 a') = true ∧
  destroyed (the_page 0 a') = true ∧
  options_enabled (the_page 0 a') = true ∧
  run_button (the_page 0 a') = StartCommand ∧
  count (the_page 0 a') = count (the_page 0 a) ∧
  fresh ≠ 0%nat ∧
  frames_RunPage a' = Some fresh ∧
  the_page fresh a' = RunPage_new ∧
  running (the_page fresh a') = false ∧
  count (the_page fresh a') = 0 ∧
  IdleState a'.
Proof.
  exact (stop_program_replaces_page 0 (App_running 4 0 preset_locations)
           (App_running_state 4 0 preset_locations)).
Defined.

(** C3 as stated fails: after [stop_program] the flag of the page that was
    running is still set, and a sweep of that page whose timers are still
    called passes every guard and visits all its indices. *)
Lemma stop_leaves_flag_set :
  let a := App_running 4 0 preset_locations in
  let r := run_cycle (only_at 1) true 0 a in
  running (the_page 0 a) = true ∧
  running (the_page 0 (stop_program 0 a)) = true ∧
  r.1 = Returned () ∧
  log r.2 !! 3%nat = Some EvStop ∧
  visited (log r.2) = [0; 1; 10; 11] ∧
  running (the_page 0 r.2) = true.
Proof. vm_compute. repeat split. Qed.

(** * Further properties *)

(** ** Tables read from files *)

Section LoadedTables.
Import PyStr.

Lemma rows_of_length n (l : list string) :
  length l = (2 * n)%nat → length (rows_of l) = n.
Proof.
  revert l. induction n as [|n IH]; intros l Hl.
  - by destruct l.
  - destruct l as [|a [|b l]]; cbn in Hl; try lia.
    cbn [rows_of length]. f_equal. apply IH. lia.
Qed.

Lemma read_ok_length (fs : files) filename table :
  read_sample_locs fs filename = Ok table → length table = 12%nat.
Proof.
  unfold read_sample_locs. destruct (fs !! filename) as [data|].
  - intros (strings & _ & Hshape)%py_bind_inv. unfold reshape_12_2 in Hshape.
    destruct (Nat.eqb_spec (length strings) 24) as [Hlen|]; [|done].
    injection Hshape as <-. apply rows_of_length. by rewrite length_fmap.
  - by intros [= <-].
Qed.

(** X1: every table that [read_sample_locs] returns, from a file or as
    the preset, has exactly twelve entries. *)
Theorem loaded_table_has_12_entries (fs : files) (filename : string)
    (table : list entry) :
  read_sample_locs fs filename = Ok table → length table = 12%nat.
Proof. apply read_ok_length. Qed.

Lemma loaded_table_has_12_entries_witness :
  length (uniform_table 300 400) = 12%nat.
Proof.
  apply (loaded_table_has_12_entries
           {[ "samples_loc.txt" := file_bytes (uniform_table 300 400) ]}
           "samples_loc.txt").
  vm_compute. reflexivity.
Defined.

End LoadedTables.

Section Reload.
Import PyStr.

Lemma rstrip_idem chars s : rstrip chars (rstrip chars s) = rstrip chars s.
Proof.
  induction s as [|c s IH]; [done|]. cbn [rstrip].
  destruct (is_empty (rstrip chars s) && mem c chars) eqn:Hc; [done|].
  cbn [rstrip]. by rewrite IH, Hc.
Qed.

Lemma utf8_lead_ok b st : utf8_lead b = Some st → utf8_state_ok st.
Proof.
  unfold utf8_lead. repeat case_match; intros [= <-]; cbn; lia.
Qed.

(** Dropping trailing NULs keeps a string well-formed. *)
Lemma utf8_rstrip_nul st s :
  utf8_state_ok st → utf8_run st s = true →
  utf8_run st (rstrip (String NUL EmptyString) s) = true.
Proof.
  revert st. induction s as [|c s IH]; intros st Hok Hrun; [done|].
  cbn [rstrip].
  destruct (is_empty (rstrip (String NUL EmptyString) s)
            && mem c (String NUL EmptyString)) eqn:Hc.
  - apply andb_prop in Hc as [_ Hc]. cbn in Hc. rewrite orb_false_r in Hc.
    apply Ascii.eqb_eq in Hc as ->.
    destruct st as [|lo hi more]; [done|].
    cbn [utf8_run utf8_state_ok] in Hok, Hrun.
    change (N_of_ascii NUL) with 0%N in Hrun.
    destruct (N.leb_spec lo 0); [lia|done].
  - cbn [utf8_run] in *. destruct st as [|lo hi more].
    + destruct (utf8_lead (N_of_ascii c)) as [st'|] eqn:Hlead; [|done].
      apply IH; [by eapply utf8_lead_ok|done].
    + destruct ((lo <=? N_of_ascii c)%N && (N_of_ascii c <=? hi)%N); [|done].
      apply IH; [by destruct more; cbn|done].
Qed.

Lemma no_line_end_not_LF s :
  all_chars no_line_end s = true →
  all_chars (λ c, negb (mem c (String LF EmptyString))) s = true.
Proof.
  apply all_chars_impl. intros c [Hc _]%andb_prop. cbn. by rewrite orb_false_r.
Qed.

(** What holds of every string of a table read from an existing file. *)
Lemma read_strings (fs : files) filename data table :
  fs !! filename = Some data →
  read_sample_locs fs filename = Ok table →
  Forall (λ e : entry,
            (all_chars no_line_end e.1 = true ∧
             utf8_run Boundary e.1 = true ∧ np_str e.1 = e.1) ∧
            (all_chars no_line_end e.2 = true ∧
             utf8_run Boundary e.2 = true ∧ np_str e.2 = e.2)) table.
Proof.
  intros Hfile. unfold read_sample_locs. rewrite Hfile.
  fold (nonempty_lines data).
  intros (strings & Hstrings & Hshape)%py_bind_inv.
  unfold reshape_12_2 in Hshape. case_match; [|done]. injection Hshape as <-.
  apply (rows_of_Forall (λ s, all_chars no_line_end s = true ∧
                              utf8_run Boundary s = true ∧ np_str s = s)).
  apply Forall_fmap. apply py_mapM_ok in Hstrings.
  assert (Forall (λ l, all_chars no_line_end l = true) (nonempty_lines data)) as Hlines.
  { unfold nonempty_lines. apply Forall_forall.
    intros l [Hl _]%list_elem_of_In%filter_In.
    pose proof (splitlines_from_no_line_end EmptyString data eq_refl) as Hall.
    rewrite Forall_forall in Hall. by apply Hall, list_elem_of_In. }
  clear -Hstrings Hlines.
  induction Hstrings as [|b s bs ss Hbs _ IH]; [constructor|].
  apply Forall_cons in Hlines as [Hb Hlines].
  constructor; [|by apply IH]. cbn beta.
  unfold decode in Hbs. destruct (utf8_run Boundary b) eqn:Hvalid; [|done].
  cbn in Hbs. injection Hbs as <-.
  rewrite (rstrip_clean _ b (no_line_end_not_LF b Hb)).
  unfold np_str. split; [by apply rstrip_all_chars|].
  split; [by apply utf8_rstrip_nul|apply rstrip_idem].
Qed.

Lemma nonempty_lines_loadable table :
  Forall loadable_pair table → nonempty_lines (file_bytes table) = flat table.
Proof.
  induction 1 as [|e table [(Hn1 & Hl1 & _) (Hn2 & Hl2 & _)] _ IH]; [done|].
  rewrite file_bytes_cons. unfold nonempty_lines, splitlines in *.
  rewrite splitlines_from_line by done.
  rewrite splitlines_from_line by done.
  change (EmptyString +:+ e.1) with e.1. change (EmptyString +:+ e.2) with e.2.
  cbn [List.filter]. rewrite Hn1, Hn2. cbn [negb].
  by rewrite IH, flat_cons.
Qed.

(** A file whose non-empty lines are the strings of a table of twelve
    pairs of loadable strings reads as that table. *)
Lemma read_loadable_lines (fs : files) filename data table :
  fs !! filename = Some data →
  nonempty_lines data = flat table →
  Forall loadable_pair table → length table = 12%nat →
  read_sample_locs fs filename = Ok table.
Proof.
  intros Hfile Hlines Htable Hlen. unfold read_sample_locs. rewrite Hfile.
  fold (nonempty_lines data). rewrite Hlines.
  assert (Forall loadable (flat table)) as Hflat.
  { clear -Htable. induction Htable as [|e table [H1 H2] _ IH]; [constructor|].
    rewrite flat_cons. constructor; [done|]. by constructor. }
  rewrite py_mapM_id.
  2:{ eapply Forall_impl; [exact Hflat|]. intros s (_ & Hl & Hv & _). cbn beta.
      unfold decode. rewrite Hv. cbn.
      by rewrite (rstrip_clean _ s (no_line_end_not_LF s Hl)). }
  rewrite py_bind_ok. unfold reshape_12_2.
  rewrite flat_length, Hlen. cbn [Nat.eqb Nat.mul Nat.add].
  f_equal. rewrite fmap_id_on; [apply rows_of_flat|].
  eapply Forall_impl; [exact Hflat|]. by intros s (_ & _ & _ & Hs).
Qed.



(** X2: a table read from an existing file, none of whose strings is
    empty, is read back unchanged after [save_locs] has written it. *)
Theorem reload_is_identity (self : SidePage) (st : Store) (fs : files)
    (filename data : string) (table : list entry) :
  fs !! filename = Some data →
  read_sample_locs fs filename = Ok table →
  Forall (λ e : entry, is_empty e.1 = false ∧ is_empty e.2 = false) table →
  py_getitem (locations st) (convert_camera (selected_camera self)) = Ok table →
  ∃ st' path,
    save_locs self st = Ok st' ∧
    py_getitem location_files (convert_camera (selected_camera self)) = Ok path ∧
    read_sample_locs (disk st') path = Ok table.
Proof.
  intros Hfile Hread Hnonempty Htable.
  eexists _, _. split; [by apply save_locs_ok|].
  split; [apply location_file_of|].
  pose proof (read_strings _ _ _ _ Hfile Hread) as Hstrings.
  assert (Forall loadable_pair table) as Hload.
  { apply Forall_forall. intros e He.
    rewrite Forall_forall in Hstrings, Hnonempty.
    destruct (Hstrings e He) as [H1 H2]. destruct (Hnonempty e He) as [Hn1 Hn2].
    by split. }
  eapply read_loadable_lines.
  - cbn [disk]. apply lookup_insert_eq.
  - by apply nonempty_lines_loadable.
  - done.
  - by eapply read_ok_length.
Qed.

Lemma reload_is_identity_witness :
  ∃ st' path,
    save_locs SidePage_init two_tables = Ok st' ∧
    py_getitem location_files (convert_camera (selected_camera SidePage_init)) = Ok path ∧
    read_sample_locs (disk st') path = Ok (uniform_table 300 400).
Proof.
  apply (reload_is_identity SidePage_init two_tables
           {[ "samples_loc.txt" := file_bytes (uniform_table 300 400) ]}
           "samples_loc.txt" (file_bytes (uniform_table 300 400))
           (uniform_table 300 400)).
  - apply lookup_singleton_eq.
  - vm_compute. reflexivity.
  - repeat constructor.
  - reflexivity.
Defined.

(** *** Line ends *)

Lemma splitlines_from_skip cur l data :
  all_chars no_line_end l = true →
  splitlines_from cur (l +:+ data) = splitlines_from (cur +:+ l) data.
Proof.
  revert cur. induction l as [|c l IH]; intros cur Hl.
  - by rewrite append_empty_r.
  - cbn [all_chars] in Hl. apply andb_prop in Hl as [Hc Hl].
    apply andb_prop in Hc as [Hc1 Hc2]. apply negb_true_iff in Hc1, Hc2.
    rewrite append_cons. cbn [splitlines_from]. rewrite Hc1, Hc2.
    rewrite (IH _ Hl). by rewrite append_assoc.
Qed.

(** A run of CR and LF ends the current line and adds only empty lines,
    provided what follows does not begin with LF. *)
Lemma splitlines_from_terminator t rest cur :
  all_chars is_line_end t = true →
  (∀ c rest', rest = String c rest' → Ascii.eqb c LF = false) →
  ∃ k, splitlines_from cur (t +:+ rest)
       = if is_empty t then splitlines_from cur rest
         else cur :: replicate k EmptyString ++ splitlines_from EmptyString rest.
Proof.
  intros Ht Hrest. revert cur. induction t as [|c t IH]; intros cur.
  - by exists 0%nat.
  - cbn [all_chars] in Ht. apply andb_prop in Ht as [Hc Ht].
    specialize (IH Ht). rewrite append_cons. cbn [splitlines_from is_empty].
    destruct (Ascii.eqb c LF) eqn:Hlf.
    + destruct (IH EmptyString) as [k Hk]. rewrite Hk.
      destruct (is_empty t); [by exists 0%nat|by exists (S k)].
    + unfold is_line_end in Hc. rewrite Hlf in Hc. cbn [orb] in Hc. rewrite Hc.
      destruct t as [|d t].
      * change (EmptyString +:+ rest) with rest. exists 0%nat.
        destruct rest as [|d rest']; [done|].
        by rewrite (Hrest d rest' eq_refl).
      * rewrite append_cons. destruct (Ascii.eqb d LF) eqn:Hd.
        -- destruct (IH EmptyString) as [k Hk]. rewrite append_cons in Hk.
           cbn [splitlines_from is_empty] in Hk. rewrite Hd in Hk.
           injection Hk as Hk. exists k. by rewrite Hk.
        -- destruct (IH EmptyString) as [k Hk]. rewrite append_cons in Hk.
           cbn [is_empty] in Hk. exists (S k). by rewrite Hk.
Qed.

Lemma filter_replicate_empty k :
  List.filter (λ b, negb (is_empty b)) (replicate k EmptyString) = [].
Proof. induction k as [|k IH]; [done|]. exact IH. Qed.

Lemma nonempty_lines_terminated l t rest :
  is_command l = true → is_terminator t = true →
  (∀ c rest', rest = String c rest' → Ascii.eqb c LF = false) →
  nonempty_lines (l +:+ t +:+ rest) = l :: nonempty_lines rest.
Proof.
  intros Hl [Hne Ht]%andb_prop Hrest. unfold nonempty_lines, splitlines.
  rewrite splitlines_from_skip by by apply command_no_line_end.
  change (EmptyString +:+ l) with l.
  destruct (splitlines_from_terminator t rest l Ht Hrest) as [k ->].
  apply negb_true_iff in Hne. rewrite Hne.
  cbn [List.filter]. rewrite (command_nonempty l Hl). cbn [negb].
  by rewrite List.filter_app, filter_replicate_empty.
Qed.

Lemma join_lines_start lines seps c rest :
  Forall (λ l, is_command l = true) lines →
  join_lines lines seps = String c rest → Ascii.eqb c LF = false.
Proof.
  intros Hlines. destruct Hlines as [|l lines Hl _]; [done|].
  destruct seps as [|t seps]; [done|]. cbn [join_lines].
  apply command_inv in Hl as (axis & digits & -> & _).
  rewrite append_cons. by intros [= <- _].
Qed.

Lemma nonempty_lines_join lines seps :
  Forall (λ l, is_command l = true) lines →
  length seps = length lines → terminators seps = true →
  nonempty_lines (join_lines lines seps) = lines.
Proof.
  intros Hlines. revert seps.
  induction Hlines as [|l lines Hl Hlines IH]; intros seps Hlen Hseps.
  - by destruct seps.
  - destruct seps as [|t seps]; [done|]. cbn [join_lines].
    cbn [terminators] in Hseps. destruct seps as [|t' seps].
    + destruct lines; [|done]. cbn [join_lines].
      apply orb_prop in Hseps as [Hempty|Hterm].
      * destruct t; [|done]. rewrite !append_empty_r.
        unfold nonempty_lines, splitlines.
        rewrite <-(append_empty_r l) at 1.
        rewrite splitlines_from_skip by by apply command_no_line_end.
        change (EmptyString +:+ l) with l. cbn [splitlines_from].
        rewrite (command_nonempty l Hl). cbn [List.filter].
        by rewrite (command_nonempty l Hl).
      * by rewrite nonempty_lines_terminated.
    + apply andb_prop in Hseps as [Hterm Hseps].
      rewrite nonempty_lines_terminated; [|done|done|].
      * f_equal. apply IH; [|done]. cbn in Hlen |- *. lia.
      * intros c rest'. by apply join_lines_start.
Qed.

(** X3: a file that holds the 24 commands of a table in order loads as
    that table whatever ends its lines: CR LF, LF or CR alone, or several of
    them (blank lines), and whether or not the last line is ended. *)
Theorem any_line_ends_load (fs : files) (filename : string)
    (table : list entry) (seps : list string) :
  Forall is_command_pair table → length table = 12%nat →
  length seps = 24%nat → terminators seps = true →
  fs !! filename = Some (join_lines (flat table) seps) →
  read_sample_locs fs filename = Ok table.
Proof.
  intros Htable Hlen Hseps Hterm Hfile.
  eapply read_lines; [exact Hfile| |done|done].
  apply nonempty_lines_join; [by apply flat_commands| |done].
  rewrite flat_length. lia.
Qed.

Lemma any_line_ends_load_witness :
  let seps := replicate 23 (String LF EmptyString) ++ [EmptyString] in
  read_sample_locs
    {[ "samples_loc.txt" := join_lines (flat (uniform_table 300 400)) seps ]}
    "samples_loc.txt"
  = Ok (uniform_table 300 400).
Proof.
  apply (any_line_ends_load _ "samples_loc.txt" (uniform_table 300 400)
           (replicate 23 (String LF EmptyString) ++ [EmptyString])).
  - repeat constructor.
  - reflexivity.
  - reflexivity.
  - reflexivity.
  - apply lookup_singleton_eq.
Defined.

End Reload.

(** ** Editing a table *)

Section Editing.
Import PyStr.

Lemma py_index_in_range {A} (l : list A) i :
  0 ≤ i < Z.of_nat (length l) → py_index l i = Ok (Z.to_nat i).
Proof.
  intros Hi. unfold py_index.
  destruct (Z.leb_spec 0 i); [|lia].
  by destruct (Z.ltb_spec i (Z.of_nat (length l))); [|lia].
Qed.

Lemma py_getitem_lookup {A} (l : list A) i x :
  0 ≤ i → py_getitem l i = Ok x →
  l !! Z.to_nat i = Some x ∧ i < Z.of_nat (length l).
Proof.
  intros Hi. unfold py_getitem, py_index.
  destruct (Z.leb_spec 0 i); [|lia].
  destruct (Z.ltb_spec i (Z.of_nat (length l))); cbn [andb].
  - rewrite py_bind_ok. destruct (l !! Z.to_nat i); [|done]. by intros [= ->].
  - destruct (Z.ltb_spec i 0); [lia|]. by rewrite andb_false_r.
Qed.

Lemma py_setitem_in_range {A} (l : list A) i v :
  0 ≤ i < Z.of_nat (length l) → py_setitem l i v = Ok (<[Z.to_nat i := v]> l).
Proof. intros Hi. unfold py_setitem. by rewrite py_index_in_range. Qed.

Lemma convert_camera_nonneg camera : 0 ≤ convert_camera camera.
Proof. unfold convert_camera. by destruct (String.eqb camera "Left"). Qed.

(** What [update_locs] does for a sample number of the selected table. *)
Lemma update_locs_ok self st n table :
  selected_sample self = Some n →
  1 ≤ n ≤ Z.of_nat (length table) →
  py_getitem (locations st) (convert_camera (selected_camera self)) = Ok table →
  let table' := <[Z.to_nat (n - 1) := (Cmd.g2 (y_entry_var self), Cmd.g1 (x_entry_var self))]> table in
  update_locs self st
  = Ok {| locations := <[Z.to_nat (convert_camera (selected_camera self)) := table']> (locations st);
          disk := <["samples_loc.txt" := file_bytes table']> (disk st) |}.
Proof.
  intros Hsel Hn Htable table'. unfold update_locs. rewrite Hsel. cbn zeta.
  rewrite Htable, py_bind_ok.
  pose proof (convert_camera_nonneg (selected_camera self)) as Hcam.
  destruct (py_getitem_lookup _ _ _ Hcam Htable) as [Hlookup Hlt].
  rewrite py_setitem_in_range. 2:{ unfold entry in *. lia. } rewrite py_bind_ok.
  rewrite py_setitem_in_range by lia. rewrite py_bind_ok.
  erewrite save_locs_ok; [reflexivity|]. cbn [locations].
  unfold py_getitem. rewrite py_index_in_range by (rewrite length_insert; lia).
  rewrite py_bind_ok, list_lookup_insert_eq; [done|lia].
Qed.

(** X4: [update_locs] with a sample number of the selected camera's table
    succeeds and changes nothing but that one entry: the table keeps its
    length, its other entries stay, the other camera's table stays, and on
    disk only [samples_loc.txt] is written. *)
Theorem update_locs_changes_one_entry (self : SidePage) (st : Store) (n : Z)
    (table : list entry) :
  selected_sample self = Some n →
  1 ≤ n ≤ Z.of_nat (length table) →
  py_getitem (locations st) (convert_camera (selected_camera self)) = Ok table →
  ∃ st' table',
    update_locs self st = Ok st' ∧
    py_getitem (locations st') (convert_camera (selected_camera self)) = Ok table' ∧
    length table' = length table ∧
    (∀ i, i ≠ Z.to_nat (n - 1) → table' !! i = table !! i) ∧
    length (locations st') = length (locations st) ∧
    (∀ c, c ≠ Z.to_nat (convert_camera (selected_camera self)) →
          locations st' !! c = locations st !! c) ∧
    (∀ path, path ≠ "samples_loc.txt" → disk st' !! path = disk st !! path).
Proof.
  intros Hsel Hn Htable.
  pose proof (convert_camera_nonneg (selected_camera self)) as Hcam.
  destruct (py_getitem_lookup _ _ _ Hcam Htable) as [Hlookup Hlt].
  eexists _, _. split; [by apply update_locs_ok|]. cbn [locations disk].
  split.
  { unfold py_getitem. rewrite py_index_in_range by (rewrite length_insert; lia).
    rewrite py_bind_ok, list_lookup_insert_eq; [done|lia]. }
  split; [apply length_insert|].
  split; [intros i Hi; by apply list_lookup_insert_ne|].
  split; [apply length_insert|].
  split; [intros c Hc; by apply list_lookup_insert_ne|].
  intros path Hpath. by apply lookup_insert_ne.
Qed.

Lemma update_locs_changes_one_entry_witness :
  ∃ st' table',
    update_locs SidePage_init two_tables = Ok st' ∧
    py_getitem (locations st') (convert_camera (selected_camera SidePage_init)) = Ok table' ∧
    length table' = length (uniform_table 300 400) ∧
    (∀ i, i ≠ Z.to_nat (1 - 1) → table' !! i = uniform_table 300 400 !! i) ∧
    length (locations st') = length (locations two_tables) ∧
    (∀ c, c ≠ Z.to_nat (convert_camera (selected_camera SidePage_init)) →
          locations st' !! c = locations two_tables !! c) ∧
    (∀ path, path ≠ "samples_loc.txt" → disk st' !! path = disk two_tables !! path).
Proof.
  apply (update_locs_changes_one_entry SidePage_init two_tables 1
           (uniform_table 300 400)).
  - reflexivity.
  - change (1 ≤ 1 ≤ 12). lia.
  - reflexivity.
Defined.



Lemma display_value_shows s digits : shows s digits → display_value s = digits.
Proof.
  intros (axis & tail & Haxis & Hdigits & Htail & ->).
  by apply display_value_command.
Qed.

(** X6: selecting a sample whose stored commands hold digit strings,
    padded with zeros or even empty, with or without a line end of their
    own, puts exactly these digit strings in the two entry fields and
    leaves the selection as it is. *)
Theorem selected_entry_is_shown (self : SidePage) (st : Store) (n : Z)
    (table : list entry) (row col digits_y digits_x : string) :
  selected_sample self = Some n →
  1 ≤ n ≤ Z.of_nat (length table) →
  py_getitem (locations st) (convert_camera (selected_camera self)) = Ok table →
  table !! Z.to_nat (n - 1) = Some (row, col) →
  shows row digits_y → shows col digits_x →
  on_combobox_change self st
  = Ok {| selected_sample := Some n;
          selected_camera := selected_camera self;
          x_entry_var := digits_x; y_entry_var := digits_y |}.
Proof.
  intros Hsel Hn Htable Hentry Hrow Hcol.
  assert (py_getitem table (n - 1) = Ok (row, col)) as Hget.
  { unfold entry in *. unfold py_getitem. rewrite py_index_in_range by lia.
    by rewrite py_bind_ok, Hentry. }
  unfold on_combobox_change. rewrite Hsel, Htable, py_bind_ok, Hget, py_bind_ok.
  unfold set_x_and_y. rewrite Hsel.
  by rewrite (display_value_shows _ _ Hrow), (display_value_shows _ _ Hcol).
Qed.

Lemma selected_entry_is_shown_witness :
  on_combobox_change SidePage_init
    {| locations := [preset_locations; preset_locations]; disk := ∅ |}
  = Ok {| selected_sample := Some 1; selected_camera := "Right";
          x_entry_var := "0500"; y_entry_var := "29000" |}.
Proof.
  apply (selected_entry_is_shown SidePage_init
           {| locations := [preset_locations; preset_locations]; disk := ∅ |}
           1 preset_locations (Cmd.line "g229000") (Cmd.line "g10500")
           "29000" "0500").
  - reflexivity.
  - change (1 ≤ 1 ≤ 12). lia.
  - reflexivity.
  - reflexivity.
  - exists "2"%char, CRLF. repeat split. by right.
  - exists "1"%char, CRLF. repeat split. by right.
Defined.

(** X7: Go To after a selection sends the selected entry's digit strings:
    first the row as [g2], then the column as [g1], each ended by CR LF,
    whether or not the stored strings had a line end and whatever axis
    digit they had. *)
Theorem go_to_sends_selected (self : SidePage) (st : Store) (n : Z)
    (table : list entry) (row col digits_y digits_x : string) :
  selected_sample self = Some n →
  1 ≤ n ≤ Z.of_nat (length table) →
  py_getitem (locations st) (convert_camera (selected_camera self)) = Ok table →
  table !! Z.to_nat (n - 1) = Some (row, col) →
  shows row digits_y → shows col digits_x →
  ∃ self', on_combobox_change self st = Ok self' ∧
    go_to self' = [String "g" (String "2" digits_y) +:+ CRLF;
                   String "g" (String "1" digits_x) +:+ CRLF].
Proof.
  intros Hsel Hn Htable Hentry Hrow Hcol.
  assert (py_getitem table (n - 1) = Ok (row, col)) as Hget.
  { unfold entry in *. unfold py_getitem. rewrite py_index_in_range by lia.
    by rewrite py_bind_ok, Hentry. }
  unfold on_combobox_change. rewrite Hsel, Htable, py_bind_ok, Hget, py_bind_ok.
  eexists. split; [reflexivity|].
  unfold go_to, set_x_and_y. cbn [x_entry_var y_entry_var].
  by rewrite (display_value_shows _ _ Hrow), (display_value_shows _ _ Hcol).
Qed.

Lemma go_to_sends_selected_witness :
  ∃ self',
    on_combobox_change SidePage_init
      {| locations := [preset_locations; [("g1777", "g9042" +:+ CRLF)]]; disk := ∅ |}
    = Ok self' ∧
    go_to self' = ["g2777" +:+ CRLF; "g1042" +:+ CRLF].
Proof.
  apply (go_to_sends_selected SidePage_init
           {| locations := [preset_locations; [("g1777", "g9042" +:+ CRLF)]]; disk := ∅ |}
           1 [("g1777", "g9042" +:+ CRLF)] "g1777" ("g9042" +:+ CRLF) "777" "042").
  - reflexivity.
  - change (1 ≤ 1 ≤ 1). lia.
  - reflexivity.
  - reflexivity.
  - exists "1"%char, EmptyString. repeat split. by left.
  - exists "9"%char, CRLF. repeat split. by right.
Defined.

End Editing.

(** ** The store of run pages *)

Section PageStore.

Variable stop_at : nat → bool.
Variable timers_outlive_widget : bool.

Lemma one_live_update j f a :
  (∀ p, destroyed (f p) = destroyed p) →
  one_live_page a → one_live_page (update_page j f a).
Proof.
  intros Hf (frame & Hframe & Hlen & Hpages).
  exists frame. unfold update_page, with_pages. cbn [frames_RunPage pages].
  split; [done|]. split; [by rewrite length_alter|].
  intros i p. destruct (decide (j = i)) as [->|Hne].
  - rewrite list_lookup_alter_eq.
    destruct (pages a !! i) as [p0|] eqn:Hp0; [|done].
    intros [= <-]. rewrite Hf. by apply Hpages.
  - rewrite list_lookup_alter_ne by done. apply Hpages.
Qed.

Lemma one_live_create_runpage a :
  one_live_page a → one_live_page (create_runpage a).
Proof.
  intros (frame & Hframe & Hlen & Hpages).
  unfold create_runpage. rewrite Hframe. cbn zeta.
  exists (S frame).
  cbn [update_page with_pages with_frames_RunPage pages frames_RunPage].
  rewrite length_alter, Hlen. split; [done|].
  split; [rewrite length_app, length_alter, Hlen; cbn; lia|].
  intros i p Hp.
  destruct (decide (i < S frame)%nat) as [Hlt|Hge].
  - rewrite lookup_app_l in Hp by (rewrite length_alter; lia).
    rewrite bool_decide_true by lia.
    destruct (decide (frame = i)) as [->|Hne].
    + rewrite list_lookup_alter_eq in Hp.
      destruct (pages a !! i); [|done]. by injection Hp as <-.
    + rewrite list_lookup_alter_ne in Hp by done.
      rewrite (Hpages i p Hp). by rewrite bool_decide_true.
  - rewrite lookup_app_r in Hp by (rewrite length_alter; lia).
    rewrite length_alter, Hlen in Hp.
    destruct (i - S frame)%nat as [|k] eqn:Hk; [|done].
    injection Hp as <-. assert (i = S frame) as -> by lia.
    by rewrite bool_decide_false by lia.
Qed.

Lemma one_live_stop_program j a :
  one_live_page a → one_live_page (stop_program j a).
Proof.
  intros Ha. unfold stop_program. apply one_live_create_runpage.
  apply one_live_update; [done|]. by apply one_live_update.
Qed.

Lemma one_live_sleep self ms :
  triple one_live_page one_live_page (sleep stop_at timers_outlive_widget self ms).
Proof.
  intros a Ha. unfold sleep.
  set (a1 := if stop_at _ then _ else _).
  assert (one_live_page a1) as Ha1.
  { unfold a1. destruct (stop_at _); [|done]. unfold press_stop.
    destruct (frames_RunPage _); [|done].
    destruct (run_button _); [done|]. by apply one_live_stop_program. }
  by destruct (destroyed (the_page self a1) && negb timers_outlive_widget).
Qed.

Lemma run_cycle_idle self a :
  running (the_page self a) = false →
  run_cycle stop_at timers_outlive_widget self a = (Returned (), a).
Proof.
  intros Hr. unfold run_cycle. erewrite bind_returned by reflexivity.
  by rewrite Hr.
Qed.

Lemma one_live_run_cycle self a :
  one_live_page a →
  one_live_page (run_cycle stop_at timers_outlive_widget self a).2.
Proof.
  intros Ha. destruct (running (the_page self a)) eqn:Hr.
  - rewrite run_cycle_unfold by done.
    set (a1 := update_page self _ (update_page self _ a)).
    assert (one_live_page a1) as Ha1.
    { unfold a1. apply one_live_update; [done|]. by apply one_live_update. }
    assert (triple one_live_page one_live_page
              (cycle_rest stop_at timers_outlive_widget self
                 (selected_sample_size a) (skip_row a))) as Htriple.
    { apply triple_cycle_rest.
      - by intros e a0 _ H.
      - intros n a0. by apply one_live_update.
      - intros i a0. by apply one_live_update.
      - apply one_live_sleep. }
    specialize (Htriple a1 Ha1).
    by destruct (cycle_rest _ _ self _ _ a1) as [[| |] a'].
  - by rewrite run_cycle_idle.
Qed.

(** X8: however often Stop is pressed and whatever becomes of the timers,
    a run started with [run_program] leaves the store of run pages with
    exactly one page alive, the last one made, which is the page in
    [frames]; [stop_program] keeps this too. *)
Theorem one_page_stays_alive (self : nat) (a : App) :
  one_live_page a →
  one_live_page (run_program stop_at timers_outlive_widget self a).2 ∧
  one_live_page (stop_program self a).
Proof.
  intros Ha. split; [|by apply one_live_stop_program].
  rewrite run_program_started. apply one_live_run_cycle.
  unfold started. apply one_live_update; [done|].
  apply one_live_update; [done|]. by apply one_live_update.
Qed.

End PageStore.

Lemma App_start_one_live sample_size skip table :
  one_live_page (App_start sample_size skip table).
Proof.
  exists 0%nat. split; [done|]. split; [done|].
  intros [|i] p; [|done]. by intros [= <-].
Qed.

Lemma one_page_stays_alive_witness :
  let a := App_start 4 0 preset_locations in
  one_live_page (run_program (only_at 1) false 0 a).2 ∧
  one_live_page (stop_program 0 a).
Proof.
  exact (one_page_stays_alive (only_at 1) false 0 (App_start 4 0 preset_locations)
           (App_start_one_live 4 0 preset_locations)).
Defined.

(** ** Counters *)

Section Counters.

Variable stop_at : nat → bool.
Variable timers_outlive_widget : bool.
Variable self : nat.

Local Abbreviation sleep := (sleep stop_at timers_outlive_widget).
Local Abbreviation goto_and_photo_row := (goto_and_photo_row stop_at timers_outlive_widget).
Local Abbreviation run_cycle := (run_cycle stop_at timers_outlive_widget).
Local Abbreviation cycle_rest := (cycle_rest stop_at timers_outlive_widget).
Local Abbreviation cycle_tail := (cycle_tail stop_at timers_outlive_widget).

Lemma cycle_rest_tail sample_size skip :
  cycle_rest self sample_size skip
  = (_ ← modify (λ a, update_page self (λ p, set_info_label (InfoCycle (count p)) p) a);
     _ ← sleep self 0;
     _ ← goto_and_photo_row self skip (sample_size `div` 2 + skip);
     _ ← goto_and_photo_row self (12 - skip - sample_size `div` 2) (12 - skip);
     cycle_tail self sample_size).
Proof. reflexivity. Qed.

Lemma triple_cycle_tail (P H : App → Prop) sample_size :
  (∀ e a, e ≠ EvStop → P a → P (emit e a)) →
  (∀ ms, triple P H (sleep self ms)) →
  triple P H (cycle_tail self sample_size).
Proof.
  intros Hemit Hsleep. unfold cycle_tail.
  apply triple_bind; [apply triple_read|]. intros time_now.
  apply triple_bind; [apply triple_modify; intros a; by apply Hemit|]. intros _.
  apply triple_bind.
  { apply triple_bind; [apply triple_read|]. intros r. apply triple_lift. }
  intros start. apply triple_bind.
  { apply triple_bind; [apply triple_read|]. intros r. apply triple_lift. }
  intros duration. apply triple_bind.
  { destruct (_ <? _).
    - apply triple_bind; [|intros interval; apply Hsleep].
      apply triple_bind; [apply triple_read|]. intros r. apply triple_lift.
    - apply triple_bind; [|intros interval; apply Hsleep].
      apply triple_bind; [apply triple_read|]. intros r. apply triple_lift. }
  intros _. apply triple_modify. intros a. by apply Hemit.
Qed.

(** *** The page put in [frames] by Stop *)

Lemma create_runpage_fresh_lookup a :
  pages (create_runpage a) !! length (pages a) = Some RunPage_new.
Proof.
  unfold create_runpage.
  set (a1 := match frames_RunPage a with Some _ => _ | None => _ end).
  assert (length (pages a1) = length (pages a)) as Hlen.
  { unfold a1. destruct (frames_RunPage a); [|done]. apply length_alter. }
  cbn [pages with_frames_RunPage with_pages].
  rewrite lookup_app_r by lia. by rewrite Hlen, Nat.sub_diag.
Qed.

Lemma stop_program_fresh_lookup j a :
  pages (stop_program j a) !! length (pages a) = Some RunPage_new.
Proof.
  unfold stop_program.
  set (a1 := update_page j _ (update_page j _ (emit EvStop a))).
  assert (length (pages a1) = length (pages a)) as <-.
  { unfold a1, update_page, with_pages. cbn [pages emit].
    by rewrite !length_alter. }
  apply create_runpage_fresh_lookup.
Qed.

Lemma started_page j a p :
  pages a !! j = Some p →
  the_page j (started j a)
  = set_running true (Some (clock a))
      (set_info_label (InfoRunning (count p)) (set_controls StopCommand false p)).
Proof.
  intros Hp. unfold started.
  assert (the_page j a = p) as Hpage by (unfold the_page; by rewrite Hp).
  rewrite !the_page_update.
  - by rewrite Hpage.
  - by eexists.
  - unfold update_page, with_pages. cbn [pages].
    rewrite list_lookup_alter_eq, Hp. by eexists.
  - unfold update_page, with_pages. cbn [pages].
    rewrite !list_lookup_alter_eq, Hp. by eexists.
Qed.

(** X9: a run started on the page that Stop has put in [frames] counts its
    cycles from 1 again, whatever the counter of the stopped page was and
    however this new run goes on. *)
Theorem restart_counts_from_one (a : App) :
  let fresh := length (pages a) in
  frames_RunPage (stop_program self a) = Some fresh ∧
  count (the_page fresh
           (run_program stop_at timers_outlive_widget fresh
              (stop_program self a)).2) = 1.
Proof.
  cbn zeta. split; [apply stop_program_fresh|].
  pose proof (stop_program_fresh_lookup self a) as Hfresh.
  rewrite run_program_started.
  pose proof (started_page _ _ _ Hfresh) as Hpage.
  rewrite run_cycle_counted; by rewrite Hpage.
Qed.

End Counters.

(** ** Undisturbed cycles: counters and phase fields *)

Section QuietCycle.

Variable stop_at : nat → bool.
Variable timers_outlive_widget : bool.
Variable self : nat.
Hypothesis quiet : undisturbed stop_at.

Local Abbreviation sleep := (sleep stop_at timers_outlive_widget).
Local Abbreviation photo_step := (photo_step stop_at timers_outlive_widget).
Local Abbreviation goto_and_photo_row := (goto_and_photo_row stop_at timers_outlive_widget).
Local Abbreviation run_cycle := (run_cycle stop_at timers_outlive_widget).
Local Abbreviation cycle_rest := (cycle_rest stop_at timers_outlive_widget).
Local Abbreviation cycle_tail := (cycle_tail stop_at timers_outlive_widget).

Lemma bind_raised {A B} (m : Run A) (k : A → Run B) a e a' :
  m a = (Raised e, a') → (m ≫= k) a = (Raised e, a').
Proof. intros H. unfold mbind, run_bind. by rewrite H. Qed.

Lemma visit_sample_name i a :
  is_Some (pages a !! self) →
  sample_name (the_page self (visit self i a)) = sample_name (the_page self a) + 1.
Proof.
  intros Hp. unfold visit. cbn zeta.
  change (the_page self (elapse 0 (emit (EvSleep 0) ?b))) with (the_page self b).
  by rewrite the_page_update.
Qed.

(** A sweep that nothing disturbs raises the sample counter by one for
    each index. *)
Lemma for_each_quiet_names indices a :
  steady self a → Forall (λ i, 0 ≤ i < 12) indices →
  ∃ a', for_each indices (photo_step self) a = (Returned (), a') ∧
        log a' = log a ++ (indices ≫= visit_events) ∧
        same_setup self a a' ∧
        sample_name (the_page self a')
        = sample_name (the_page self a) + Z.of_nat (length indices).
Proof using quiet.
  intros Hst Hin. revert a Hst.
  induction Hin as [|i indices Hi _ IH]; intros a Hst.
  - exists a. cbn. rewrite app_nil_r. split; [done|]. split; [done|].
    split; [apply same_setup_refl|lia].
  - pose proof (running_valid self a (proj1 Hst)) as Hvalid.
    assert (same_setup self a (visit self i a)) as Hvis
      by by apply visit_same_setup.
    destruct (IH (visit self i a)) as (a' & Hrun & Hlog & Hsame & Hname).
    { by eapply steady_same_setup. }
    exists a'. split; [|split; [|split]].
    + cbn [for_each].
      erewrite bind_returned by (by apply (photo_step_quiet stop_at)).
      done.
    + rewrite Hlog, visit_log, <-app_assoc. done.
    + by eapply same_setup_trans.
    + rewrite Hname, visit_sample_name by done. cbn [length]. lia.
Qed.

(** The two sweeps of a cycle that nothing disturbs, up to the point where
    the clock is read. *)
Lemma cycle_sweeps_quiet a :
  steady self a →
  let sample_size := selected_sample_size a in
  let skip := skip_row a in
  let cols := sample_size `div` 2 in
  0 ≤ cols → 0 ≤ skip → cols + skip ≤ 12 → 0 ≤ 12 - skip - cols →
  ∃ a4,
    run_cycle self a = cycle_tail self sample_size a4 ∧
    log a4 = log a ++ [EvSleep 0]
               ++ (py_range skip (cols + skip) ≫= visit_events)
               ++ (py_range (12 - skip - cols) (12 - skip) ≫= visit_events) ∧
    set_sample_name 0 (the_page self a4)
    = set_sample_name 0 (cycle_page (the_page self a)) ∧
    sample_name (the_page self a4) = 1 + cols + cols ∧
    steady self a4.
Proof using quiet.
  intros Hst sample_size skip cols H0 H1 H2 H3.
  pose proof Hst as (Hr & Hd & Htable).
  pose proof (running_valid self a Hr) as Hvalid.
  rewrite run_cycle_unfold by done. rewrite cycle_rest_tail.
  erewrite bind_returned by reflexivity.
  set (a1 := update_page self _ (update_page self _ (update_page self _ a))).
  assert (the_page self a1 = cycle_page (the_page self a)) as Hpage1.
  { unfold a1. rewrite !the_page_update; [done|done| |].
    - unfold update_page, with_pages. cbn [pages].
      rewrite list_lookup_alter_eq. by destruct Hvalid as [p ->].
    - unfold update_page, with_pages. cbn [pages].
      rewrite !list_lookup_alter_eq. by destruct Hvalid as [p ->]. }
  assert (steady self a1) as Hst1.
  { split; [|split]; [by rewrite Hpage1|by rewrite Hpage1|exact Htable]. }
  erewrite bind_returned by (apply (sleep_quiet stop_at); [done|by rewrite Hpage1]).
  set (a2 := elapse 0 (emit (EvSleep 0) a1)).
  assert (steady self a2) as Hst2 by exact Hst1.
  fold sample_size skip cols.
  destruct (for_each_quiet_names (py_range skip (cols + skip)) a2 Hst2)
    as (a3 & Hrun3 & Hlog3 & Hsame3 & Hname3);
    [apply py_range_in_grid; lia|].
  pose proof (steady_same_setup self a2 a3 Hst2 Hsame3) as Hst3.
  destruct (for_each_quiet_names (py_range (12 - skip - cols) (12 - skip)) a3 Hst3)
    as (a4 & Hrun4 & Hlog4 & Hsame4 & Hname4);
    [apply py_range_in_grid; lia|].
  pose proof (same_setup_trans self _ _ _ Hsame3 Hsame4) as Hsame.
  exists a4. unfold goto_and_photo_row.
  erewrite bind_returned by exact Hrun3.
  erewrite bind_returned by exact Hrun4.
  split; [done|]. split.
  { rewrite Hlog4, Hlog3. cbn [log a2 emit elapse].
    unfold a1 at 1. cbn [log update_page with_pages].
    by rewrite <-!app_assoc. }
  split.
  { destruct Hsame as (Hpage4 & _).
    change (the_page self a2) with (the_page self a1) in Hpage4.
    by rewrite Hpage4, Hpage1. }
  split; [|by eapply steady_same_setup].
  rewrite Hname4, Hname3. change (the_page self a2) with (the_page self a1).
  rewrite Hpage1. cbn [sample_name cycle_page set_info_label set_count set_sample_name].
  unfold py_range. rewrite !length_seqZ. lia.
Qed.

Lemma read_lift_ok {A} (f : App → py_result A) a x :
  f a = Ok x → (read f ≫= lift) a = (Returned x, a).
Proof. intros H. unfold mbind, run_bind, read, lift. by rewrite H. Qed.

Lemma read_lift_raise {A} (f : App → py_result A) a e :
  f a = Raise e → (read f ≫= lift) a = (@Raised A e, a).
Proof. intros H. unfold mbind, run_bind, read, lift. by rewrite H. Qed.

(** The end of a cycle that nothing disturbs: what is read from the phase
    fields decides between the wait and the exception. *)
Lemma cycle_tail_quiet sample_size a start :
  destroyed (the_page self a) = false →
  start_time (the_page self a) = Some start →
  let r := phase_wait (the_page self a) (clock a) start sample_size in
  ∃ a',
    cycle_tail self sample_size a
    = (match r with Ok _ => Returned () | Raise e => Raised e end, a') ∧
    log a' = log a ++ [EvNow (clock a)]
               ++ match r with
                  | Ok wait => [EvSleep (wait * 1000); EvAfter 1000]
                  | Raise _ => []
                  end ∧
    pages a' = pages a.
Proof using quiet.
  intros Hd Hstart. unfold cycle_tail, phase_wait.
  erewrite bind_returned by reflexivity.
  erewrite bind_returned by reflexivity.
  set (a1 := emit (EvNow (clock a)) a).
  change (the_page self a) with (the_page self a1) in *.
  erewrite bind_returned by (apply read_lift_ok; by rewrite Hstart).
  destruct (phase_duration (the_page self a1)) as [duration|] eqn:Hduration.
  2:{ exists a1. erewrite bind_raised
        by (apply read_lift_raise; by rewrite Hduration).
      split; [done|]. split; [|done]. by rewrite app_nil_r. }
  erewrite bind_returned by (apply read_lift_ok; by rewrite Hduration).
  cbn [py_int]. rewrite py_bind_ok.
  change (clock a1) with (clock a).
  destruct (clock a - start <? timedelta_hours duration).
  - destruct (phase1_interval (the_page self a1)) as [interval|] eqn:Hinterval.
    + exists (emit (EvAfter 1000)
                (elapse (cycle_wait interval sample_size * 1000)
                   (emit (EvSleep (cycle_wait interval sample_size * 1000)) a1))).
      erewrite bind_returned.
      2:{ erewrite bind_returned by (apply read_lift_ok; by rewrite Hinterval).
          by apply (sleep_quiet stop_at). }
      split; [done|]. split; [|done].
      cbn [log emit elapse a1]. by rewrite <-!app_assoc.
    + exists a1. erewrite bind_raised.
      2:{ apply bind_raised. apply read_lift_raise. by rewrite Hinterval. }
      split; [done|]. split; [|done]. by rewrite app_nil_r.
  - destruct (phase2_interval (the_page self a1)) as [interval|] eqn:Hinterval.
    + exists (emit (EvAfter 1000)
                (elapse (cycle_wait interval sample_size * 1000)
                   (emit (EvSleep (cycle_wait interval sample_size * 1000)) a1))).
      erewrite bind_returned.
      2:{ erewrite bind_returned by (apply read_lift_ok; by rewrite Hinterval).
          by apply (sleep_quiet stop_at). }
      split; [done|]. split; [|done].
      cbn [log emit elapse a1]. by rewrite <-!app_assoc.
    + exists a1. erewrite bind_raised.
      2:{ apply bind_raised. apply read_lift_raise. by rewrite Hinterval. }
      split; [done|]. split; [|done]. by rewrite app_nil_r.
Qed.

Lemma phase_wait_error p time_now start sample_size e :
  phase_wait p time_now start sample_size = Raise e → e = ValueError.
Proof.
  unfold phase_wait. destruct (phase_duration p) as [duration|]; cbn [py_int].
  - rewrite py_bind_ok.
    destruct (if _ <? _ then _ else _); cbn [py_int].
    + by rewrite py_bind_ok.
    + by intros [= <-].
  - by intros [= <-].
Qed.

Lemma phase_wait_same_fields p q time_now start sample_size :
  set_sample_name 0 q = set_sample_name 0 (cycle_page p) →
  phase_wait q time_now start sample_size = phase_wait p time_now start sample_size.
Proof.
  intros H. unfold phase_wait.
  assert (phase_duration q = phase_duration p) as ->
    by exact (f_equal phase_duration H).
  assert (phase1_interval q = phase1_interval p) as ->
    by exact (f_equal phase1_interval H).
  assert (phase2_interval q = phase2_interval p) as ->
    by exact (f_equal phase2_interval H).
  done.
Qed.

(** X10: in a cycle that nothing disturbs the phase fields are read only
    after both sweeps. The cycle makes all its visits, reads the clock, then
    reads the duration and the interval of the phase it is in: if both hold
    an integer it waits and re-arms itself, and if one of them is empty it
    raises [ValueError] with all the visits made and without re-arming. The
    interval of the other phase is not read. The sample counter ends one
    above the number of samples in both cases. *)
Theorem cycle_reads_phase_fields_last (a : App) :
  RunningState self a → twelve_slots a →
  valid_config (selected_sample_size a) (skip_row a) →
  let sample_size := selected_sample_size a in
  let skip := skip_row a in
  let cols := sample_size `div` 2 in
  ∃ a' time_now start,
    start_time (the_page self a) = Some start ∧
    let r := phase_wait (the_page self a) time_now start sample_size in
    run_cycle self a
    = (match r with Ok _ => Returned () | Raise _ => Raised ValueError end, a') ∧
    log a' = log a ++ [EvSleep 0]
               ++ (py_range skip (cols + skip) ≫= visit_events)
               ++ (py_range (12 - skip - cols) (12 - skip) ≫= visit_events)
               ++ [EvNow time_now]
               ++ match r with
                  | Ok wait => [EvSleep (wait * 1000); EvAfter 1000]
                  | Raise _ => []
                  end ∧
    sample_name (the_page self a') = sample_size + 1.
Proof using quiet.
  intros Hrun Hslots Hconfig sample_size skip cols.
  pose proof (running_state_steady self a Hrun Hslots) as Hsteady.
  destruct (valid_config_cols _ _ Hconfig) as (Hcols & Heven & Hskip).
  fold sample_size cols skip in Hcols, Heven, Hskip.
  destruct (cycle_sweeps_quiet a Hsteady) as (a4 & Hcycle & Hlog & Hpage & Hname & Hst4);
    [fold sample_size cols skip; lia..|].
  fold sample_size cols skip in Hcycle, Hlog, Hname.
  destruct Hrun as (_ & _ & _ & _ & start & Hstart).
  assert (start_time (the_page self a4) = Some start) as Hstart4.
  { rewrite <-Hstart. exact (f_equal start_time Hpage). }
  destruct Hst4 as (_ & Hd4 & _).
  destruct (cycle_tail_quiet sample_size a4 start Hd4 Hstart4)
    as (a' & Htail & Hlog' & Hpages).
  rewrite (phase_wait_same_fields (the_page self a)) in Htail, Hlog' by done.
  exists a', (clock a4), start. split; [done|]. cbn zeta.
  split; [|split].
  - rewrite Hcycle, Htail.
    destruct (phase_wait _ _ _ _) as [wait|e] eqn:Hr; [done|].
    by rewrite (phase_wait_error _ _ _ _ _ Hr).
  - rewrite Hlog', Hlog. by rewrite <-!app_assoc.
  - unfold the_page in *. rewrite Hpages, Hname. lia.
Qed.

End QuietCycle.

(** *** Instances *)

Lemma config_4_0 : valid_config 4 0.
Proof. split; apply list_elem_of_In; cbn; tauto. Qed.

Lemma empty_duration_state :
  RunningState 0
    (update_page 0 (set_phase_duration None) (App_running 4 0 preset_locations)).
Proof. split; [done|]. split; [done|]. split; [done|]. split; [done|]. by eexists. Qed.

Lemma cycle_reads_phase_fields_last_witness :
  let a := update_page 0 (set_phase_duration None)
             (App_running 4 0 preset_locations) in
  ∃ a' time_now start,
    start_time (the_page 0 a) = Some start ∧
    let r := phase_wait (the_page 0 a) time_now start 4 in
    run_cycle never false 0 a
    = (match r with Ok _ => Returned () | Raise _ => Raised ValueError end, a') ∧
    log a' = log a ++ [EvSleep 0]
               ++ (py_range 0 2 ≫= visit_events)
               ++ (py_range 10 12 ≫= visit_events)
               ++ [EvNow time_now]
               ++ match r with
                  | Ok wait => [EvSleep (wait * 1000); EvAfter 1000]
                  | Raise _ => []
                  end ∧
    sample_name (the_page 0 a') = 4 + 1.
Proof.
  exact (cycle_reads_phase_fields_last never false 0 never_undisturbed
           (update_page 0 (set_phase_duration None) (App_running 4 0 preset_locations))
           empty_duration_state
           (ex_intro _ preset_locations (conj eq_refl eq_refl))
           config_4_0).
Defined.

(** ** The lookups of a cycle under any schedule *)

Section Traces.

Variable stop_at : nat → bool.
Variable timers_outlive_widget : bool.
Variable self : nat.
Variable p0 : RunPage.

Local Abbreviation sleep := (sleep stop_at timers_outlive_widget).
Local Abbreviation photo_step := (photo_step stop_at timers_outlive_widget).
Local Abbreviation goto_and_photo_row := (goto_and_photo_row stop_at timers_outlive_widget).
Local Abbreviation run_cycle := (run_cycle stop_at timers_outlive_widget).
Local Abbreviation cycle_rest := (cycle_rest stop_at timers_outlive_widget).
Local Abbreviation cycle_tail := (cycle_tail stop_at timers_outlive_widget).
Local Abbreviation tracked := (tracked self p0).
Local Abbreviation traces := (traces self p0).

Lemma traces_ret {A} (x : A) : traces (mret x) [].
Proof. intros a Ha. cbn. by rewrite app_nil_r. Qed.

Lemma traces_bind {A B} (m : Run A) (k : A → Run B) l1 l2 :
  traces m l1 → (∀ x, traces (k x) l2) → traces (m ≫= k) (l1 ++ l2).
Proof.
  intros Hm Hk a Ha. specialize (Hm a Ha). unfold mbind, run_bind.
  destruct (m a) as [[x|e|] a1]; [|done|].
  - destruct Hm as [Ha1 Hlog1]. specialize (Hk x a1 Ha1).
    destruct (k x a1) as [[y|e|] a2]; [|done|].
    + destruct Hk as [Ha2 Hlog2]. split; [done|].
      by rewrite Hlog2, Hlog1, <-app_assoc.
    + destruct Hk as (done & Hpre & Hlog2). exists (l1 ++ done).
      split; [by apply prefix_app|]. by rewrite Hlog2, Hlog1, <-app_assoc.
  - destruct Hm as (done & Hpre & Hlog1). exists done.
    split; [by apply prefix_app_r|done].
Qed.

Lemma traces_modify (f : App → App) l :
  (∀ a, tracked a → tracked (f a) ∧ visited (log (f a)) = visited (log a) ++ l) →
  traces (modify f) l.
Proof. intros Hf a Ha. by apply Hf. Qed.

Lemma traces_read {A} (f : App → A) : traces (read f) [].
Proof. intros a Ha. cbn. by rewrite app_nil_r. Qed.

(** The value read is one that [tracked] allows. *)
Lemma traces_read_bind {A B} (f : App → A) (Q : A → Prop) (k : A → Run B) l :
  (∀ a, tracked a → Q (f a)) → (∀ x, Q x → traces (k x) l) →
  traces (read f ≫= k) l.
Proof. intros Hf Hk a Ha. exact (Hk (f a) (Hf a Ha) a Ha). Qed.

Lemma traces_read_lift_bind {A B} (f : App → py_result A) (Q : A → Prop)
    (k : A → Run B) l :
  (∀ a, tracked a → ∃ x, f a = Ok x ∧ Q x) → (∀ x, Q x → traces (k x) l) →
  traces ((read f ≫= lift) ≫= k) l.
Proof.
  intros Hf Hk a Ha. destruct (Hf a Ha) as (x & Hx & HQ).
  erewrite bind_returned by (by apply read_lift_ok).
  exact (Hk x HQ a Ha).
Qed.

Lemma traces_lift_bind {A B} (r : py_result A) (x : A) (k : A → Run B) l :
  r = Ok x → traces (k x) l → traces (lift r ≫= k) l.
Proof. intros -> Hk a Ha. exact (Hk a Ha). Qed.

Lemma tracked_emit e a :
  tracked a → tracked (emit e a) ∧ visited (log (emit e a)) = visited (log a) ++ visited [e].
Proof. intros Ha. split; [exact Ha|]. cbn [log emit]. apply visited_app. Qed.

Lemma tracked_update j f a :
  (∀ p, settings (f p) = settings p) → tracked a → tracked (update_page j f a).
Proof.
  intros Hf ([p Hp] & Hs & Ht). unfold tracked, the_page in *.
  unfold update_page, with_pages. cbn [pages].
  destruct (decide (j = self)) as [->|Hne].
  - rewrite list_lookup_alter_eq, Hp in *. cbn in *.
    split; [by eexists|]. split; [|exact Ht]. by rewrite Hf.
  - rewrite list_lookup_alter_ne, Hp in * by done.
    split; [by eexists|]. split; [done|exact Ht].
Qed.

Lemma tracked_create_runpage a : tracked a → tracked (create_runpage a).
Proof.
  intros Ha. unfold create_runpage.
  set (a1 := match frames_RunPage a with Some _ => _ | None => _ end).
  assert (tracked a1) as ([p Hp] & Hs & Ht).
  { unfold a1. destruct (frames_RunPage a); [|done].
    apply tracked_update; [done|]. exact Ha. }
  unfold tracked, the_page in *. cbn [pages with_frames_RunPage with_pages].
  rewrite lookup_app_l by (by eapply lookup_lt_Some).
  split; [by eexists|]. split; [done|exact Ht].
Qed.

Lemma tracked_stop_program j a : tracked a → tracked (stop_program j a).
Proof.
  intros Ha. unfold stop_program. apply tracked_create_runpage.
  apply tracked_update; [done|]. apply tracked_update; [done|]. exact Ha.
Qed.

Lemma stop_program_visited j a :
  visited (log (stop_program j a)) = visited (log a).
Proof.
  unfold stop_program, create_runpage.
  set (a1 := update_page j _ (update_page j _ (emit EvStop a))).
  assert (log (match frames_RunPage a1 with
               | Some frame => update_page frame destroy (with_frames_RunPage None a1)
               | None => a1
               end) = log a ++ [EvStop]) as Hlog
    by by destruct (frames_RunPage a1).
  cbn [log with_frames_RunPage with_pages]. rewrite Hlog, visited_app.
  apply app_nil_r.
Qed.

(** A suspension is no lookup, whether Stop is pressed during it or not,
    and it leaves the settings of every page as they are. *)
Lemma traces_sleep ms : traces (sleep self ms) [].
Proof.
  intros a Ha. unfold sleep.
  set (a0 := elapse ms (emit (EvSleep ms) a)).
  assert (tracked a0) as Ha0 by exact Ha.
  assert (visited (log a0) = visited (log a) ++ []) as Hlog0.
  { unfold a0. cbn [log elapse emit]. by rewrite visited_app. }
  set (a1 := if stop_at _ then _ else _).
  assert (tracked a1 ∧ visited (log a1) = visited (log a) ++ []) as [Ha1 Hlog1].
  { unfold a1. destruct (stop_at _); [|done]. unfold press_stop.
    destruct (frames_RunPage a0); [|done].
    destruct (run_button _); [done|]. split; [by apply tracked_stop_program|].
    by rewrite stop_program_visited. }
  destruct (destroyed (the_page self a1) && negb timers_outlive_widget); [|done].
  by exists [].
Qed.

Hypothesis is_running : running p0 = true.

Lemma traces_photo_step i : 0 ≤ i < 12 → traces (photo_step self i) [i].
Proof using is_running.
  intros Hi. unfold photo_step.
  apply (traces_read_bind _ (λ x, x = true)).
  { intros a (_ & Hs & _). rewrite <-is_running.
    exact (f_equal (λ s, s.1.1.1.1) Hs). }
  intros _ ->.
  apply (traces_read_lift_bind _ (λ table : list entry, length table = 12%nat)).
  { intros a (_ & _ & table & Htable & Hlen). by exists table. }
  intros table Hlen.
  apply (traces_bind _ _ [i] []); [apply traces_modify, tracked_emit|]. intros _.
  destruct (py_getitem_in_range table i) as [x Hx]; [unfold entry in *; lia|].
  apply (traces_lift_bind _ x); [done|].
  apply (traces_bind _ _ [] []); [apply traces_sleep|]. intros _.
  apply (traces_bind _ _ [] []); [apply traces_sleep|]. intros _.
  apply (traces_bind _ _ [] []); [apply traces_modify, tracked_emit|]. intros _.
  apply (traces_bind _ _ [] []); [|intros _; apply traces_sleep].
  apply traces_modify. intros a Ha. split; [by apply tracked_update|].
  by rewrite app_nil_r.
Qed.

Lemma traces_goto_and_photo_row start stop :
  0 ≤ start → stop ≤ 12 → traces (goto_and_photo_row self start stop) (py_range start stop).
Proof using is_running.
  intros Hstart Hstop. unfold goto_and_photo_row.
  pose proof (py_range_in_grid start stop Hstart Hstop) as Hgrid.
  induction Hgrid as [|i indices Hi _ IH]; [apply traces_ret|].
  cbn [for_each]. apply (traces_bind _ _ [i] indices); [by apply traces_photo_step|].
  intros _. exact IH.
Qed.

Hypothesis has_start : is_Some (start_time p0).
Hypothesis has_phases : ∃ d i1 i2, phases_entered p0 d i1 i2.

Lemma traces_cycle_tail sample_size : traces (cycle_tail self sample_size) [].
Proof using has_start has_phases.
  destruct has_start as [start Hstart].
  destruct has_phases as (d & i1 & i2 & Hd & Hi1 & Hi2).
  unfold cycle_tail.
  apply (traces_bind _ _ [] []); [apply traces_read|]. intros time_now.
  apply (traces_bind _ _ [] []); [apply traces_modify, tracked_emit|]. intros _.
  apply (traces_read_lift_bind _ (λ _, True)).
  { intros a (_ & Hs & _). exists start. split; [|done].
    assert (start_time (the_page self a) = start_time p0) as ->
      by exact (f_equal (λ s, s.1.1.1.2) Hs).
    by rewrite Hstart. }
  intros start' _.
  apply (traces_read_lift_bind _ (λ _, True)).
  { intros a (_ & Hs & _). exists d. split; [|done].
    assert (phase_duration (the_page self a) = phase_duration p0) as ->
      by exact (f_equal (λ s, s.1.1.2) Hs).
    by rewrite Hd. }
  intros duration _.
  apply (traces_bind _ _ [] []);
    [|intros _; apply traces_modify, tracked_emit].
  destruct (_ <? _).
  - apply (traces_read_lift_bind _ (λ _, True)); [|intros; apply traces_sleep].
    intros a (_ & Hs & _). exists i1. split; [|done].
    assert (phase1_interval (the_page self a) = phase1_interval p0) as ->
      by exact (f_equal (λ s, s.1.2) Hs).
    by rewrite Hi1.
  - apply (traces_read_lift_bind _ (λ _, True)); [|intros; apply traces_sleep].
    intros a (_ & Hs & _). exists i2. split; [|done].
    assert (phase2_interval (the_page self a) = phase2_interval p0) as ->
      by exact (f_equal (λ s, s.2) Hs).
    by rewrite Hi2.
Qed.

Lemma traces_cycle_rest sample_size skip :
  0 ≤ skip → sample_size `div` 2 + skip ≤ 12 →
  0 ≤ 12 - skip - sample_size `div` 2 →
  traces (cycle_rest self sample_size skip)
    (py_range skip (sample_size `div` 2 + skip)
       ++ py_range (12 - skip - sample_size `div` 2) (12 - skip)).
Proof using is_running has_start has_phases.
  intros H1 H2 H3. rewrite cycle_rest_tail.
  apply (traces_bind _ _ [] _).
  { apply traces_modify. intros a Ha. split; [by apply tracked_update|].
    by rewrite app_nil_r. }
  intros _. apply (traces_bind _ _ [] _); [apply traces_sleep|]. intros _.
  apply traces_bind; [by apply traces_goto_and_photo_row|]. intros _.
  rewrite <-(app_nil_r (py_range (12 - skip - _) _)).
  apply traces_bind; [apply traces_goto_and_photo_row; lia|]. intros _.
  apply traces_cycle_tail.
Qed.

End Traces.

(** X11: whenever Stop is pressed during a cycle, and whether or not Tk
    still calls the timers of a destroyed page, a cycle started with the
    three phase fields filled in raises no exception, and the table
    entries it looks up are the first few of the planned ones, in their
    order; they are all of them when the call returns. In particular every
    index it uses is one of 0..11. *)
Theorem cycle_lookups_follow_plan (stop_at : nat → bool) (timers_outlive_widget : bool)
    (self : nat) (a : App) (duration interval1 interval2 : Z) :
  RunningState self a → twelve_slots a →
  valid_config (selected_sample_size a) (skip_row a) →
  phases_entered (the_page self a) duration interval1 interval2 →
  let skip := skip_row a in
  let cols := selected_sample_size a `div` 2 in
  let plan := py_range skip (cols + skip) ++ py_range (12 - skip - cols) (12 - skip) in
  let r := run_cycle stop_at timers_outlive_widget self a in
  ∃ done,
    visited (log r.2) = visited (log a) ++ done ∧
    done `prefix_of` plan ∧
    Forall (λ i, 0 ≤ i < 12) done ∧
    (∀ e, r.1 ≠ Raised e) ∧
    (r.1 = Returned () → done = plan).
Proof.
  intros Hrun Hslots Hconfig Hphases skip cols plan r.
  destruct (valid_config_cols _ _ Hconfig) as (Hcols & _ & Hskip).
  fold cols skip in Hcols, Hskip.
  pose proof Hrun as (_ & Hr & _ & _ & Hstart).
  pose proof (running_valid self a Hr) as Hvalid.
  assert (Forall (λ i, 0 ≤ i < 12) plan) as Hgrid.
  { apply Forall_app. split; apply py_range_in_grid; lia. }
  pose proof (traces_cycle_rest stop_at timers_outlive_widget self (the_page self a)
                Hr Hstart (ex_intro _ duration (ex_intro _ interval1
                                                  (ex_intro _ interval2 Hphases)))
                (selected_sample_size a) skip) as Htraces.
  fold cols plan in Htraces.
  set (a1 := update_page self (λ p, set_count (count p + 1) p)
               (update_page self (set_sample_name 1) a)).
  specialize (Htraces ltac:(lia) ltac:(lia) ltac:(lia) a1).
  assert (r = cycle_rest stop_at timers_outlive_widget self
                (selected_sample_size a) skip a1) as Hr1
    by by apply run_cycle_unfold.
  rewrite <-Hr1 in Htraces. change (log a1) with (log a) in Htraces.
  assert (tracked self (the_page self a) a1) as Ha1.
  { unfold a1. apply tracked_update; [done|]. apply tracked_update; [done|].
    by split. }
  specialize (Htraces Ha1).
  destruct r as [[[]|e|] a']; [| done |].
  - destruct Htraces as [_ Hlog]. exists plan. by repeat split.
  - destruct Htraces as (done & Hpre & Hlog). exists done.
    split; [done|]. split; [done|]. split; [|by split].
    destruct Hpre as [rest ->]. by apply Forall_app in Hgrid as [? _].
Qed.

Lemma cycle_lookups_follow_plan_witness :
  let a := App_running 12 1 preset_locations in
  let plan := py_range 1 7 ++ py_range 5 11 in
  let r := run_cycle (only_at 9) true 0 a in
  ∃ done,
    visited (log r.2) = visited (log a) ++ done ∧
    done `prefix_of` plan ∧
    Forall (λ i, 0 ≤ i < 12) done ∧
    (∀ e, r.1 ≠ Raised e) ∧
    (r.1 = Returned () → done = plan).
Proof.
  exact (cycle_lookups_follow_plan (only_at 9) true 0
           (App_running 12 1 preset_locations) 30 5 30
           (App_running_state 12 1 preset_locations)
           (App_running_slots 12 1) config_12_1
           (App_running_phases 12 1 preset_locations)).
Defined.
